(** * serve.py: a static file server with a CORS header

    A shallow embedding of [serve.py] and of the parts of the Python
    runtime it runs on.

    - [Runtime] models what the script calls but does not define: the
      listener socket, standard output, the browser launcher, the
      serving loop, and how the interpreter turns the way [main] ends
      into an exit status.  Every external call is an event of a trace,
      and its result is chosen by a [world], so a theorem over all
      worlds covers every behaviour of the environment.
    - [PyStr] has the string methods the request handler uses.
    - [HttpServer] models the request handler classes of the standard
      library module [http.server] (CPython 3.11, Lib/http/server.py),
      method by method.  The library calls [self.end_headers()], so the
      methods that do are parameterised by what [end_headers] is on the
      object at hand.
    - [Serve] is the script itself: [PORT], [Handler.end_headers] and
      [main].
    - [Demo] is a small site, to run the server on concrete requests.

    Definitions come first, proofs after them. *)

From Stdlib Require Import String Ascii List ZArith Lia Bool DecimalString.
From ExtLib Require Import Structures.Monad Structures.MonadExc.
Import ListNotations.
Import MonadNotation.
Local Open Scope string_scope.
Local Open Scope monad_scope.

(** ** Strings *)

Definition LF : string := String (ascii_of_nat 10) EmptyString.
Definition CRLF : string := String (ascii_of_nat 13) LF.

(** [str(n)] on an integer: its decimal writing. *)
Definition str (n : Z) : string := NilZero.string_of_int (Z.to_int n).

(** ** The runtime under the script *)

Module Runtime.

(** The exceptions the script can meet.  [KeyboardInterrupt] is what
    the interpreter raises in the main thread on SIGINT (Ctrl+C);
    [SystemExit] is what [sys.exit] raises, here with the exit status
    its code stands for (the code itself for an integer from 0 to 255,
    0 for [None]); [OSError] is what socket and file operations raise;
    [PyException] is an exception of any other class, a subclass of
    [Exception], with the name of the class. *)
Inductive exn : Type :=
| KeyboardInterrupt
| SystemExit (status : Z)
| OSError (strerror : string)
| PyException (cls : string).

(** How a call ends: it returns a value, raises, or never returns. *)
Inductive outcome (A : Type) : Type :=
| Returns (a : A)
| Raises (e : exn)
| Hangs.
Arguments Returns {A} a.
Arguments Raises {A} e.
Arguments Hangs {A}.

(** The request handler classes a server can be given: the one of
    [http.server] that serves files, and the subclass [Handler] that
    serve.py declares. *)
Inductive RequestHandlerClass : Type :=
| SimpleHTTPRequestHandler
| Handler.

(** The calls [main] makes into the runtime, with their arguments. *)
Inductive event : Type :=
| Ev_HTTPServer (server_address : string * Z) (cls : RequestHandlerClass)
| Ev_print (s : string)
| Ev_webbrowser_open (url : string)
| Ev_serve_forever
| Ev_server_close.

(** The listener socket of the process. *)
Inductive listener : Type :=
| NoSocket
| Listening (server_address : string * Z)
| Closed.

(** The environment: for each call, how it ends.
    - [w_HTTPServer]: the constructor binds and listens
      ([server_bind], [server_activate]); a port in use makes it raise
      [OSError].
    - [w_print]: writing a line to standard output.
    - [w_webbrowser_open]: returns [True] when a browser was launched
      and [False] when none could be.
    - [w_serve_forever]: the serving loop; [Hangs] is a server that is
      never interrupted.
    - [w_server_close]: closing the listener socket.
    - [w_exit_flush]: whether the flush of standard output that the
      interpreter does when it finalizes succeeds.  A [print] that
      returns may have left its line in the buffer, and a [print] that
      raised has left it there, so the flush can fail after either. *)
Record world : Type := {
  w_HTTPServer : string * Z -> outcome unit;
  w_print : string -> outcome unit;
  w_webbrowser_open : string -> outcome bool;
  w_serve_forever : outcome unit;
  w_server_close : outcome unit;
  w_exit_flush : bool
}.

Record process : Type := {
  trace : list event;
  socket : listener
}.

Definition start : process := {| trace := []; socket := NoSocket |}.

(** Python statements: they read the world, extend the trace, and end
    as an [outcome]. *)
Definition py (A : Type) : Type := world -> process -> process * outcome A.

#[global] Instance Monad_py : Monad py := {
  ret := fun _ a _ p => (p, Returns a);
  bind := fun _ _ c k w p =>
    match c w p with
    | (p', Returns a) => k a w p'
    | (p', Raises e) => (p', Raises e)
    | (p', Hangs) => (p', Hangs)
    end
}.

#[global] Instance MonadExc_py : MonadExc exn py := {
  raise := fun _ e _ p => (p, Raises e);
  catch := fun _ c handler w p =>
    match c w p with
    | (p', Raises e) => handler e w p'
    | r => r
    end
}.

(** A call into the runtime: the event is recorded, the socket changes
    when the call returns, and the world decides the outcome. *)
Definition call {A : Type} (ev : event) (pick : world -> outcome A)
    (after : listener -> listener) : py A :=
  fun w p =>
    let r := pick w in
    ({| trace := trace p ++ [ev];
        socket := match r with Returns _ => after (socket p) | _ => socket p end |},
     r).

(** The server object [HTTPServer(...)] returns. *)
Record httpd_t : Type := {
  server_address_of : string * Z;
  RequestHandlerClass_of : RequestHandlerClass
}.

Definition HTTPServer (server_address : string * Z)
    (cls : RequestHandlerClass) : py httpd_t :=
  call (Ev_HTTPServer server_address cls)
       (fun w => w_HTTPServer w server_address)
       (fun _ => Listening server_address) ;;
  ret {| server_address_of := server_address; RequestHandlerClass_of := cls |}.

Definition print (s : string) : py unit :=
  call (Ev_print s) (fun w => w_print w s) (fun l => l).

Definition webbrowser_open (url : string) : py bool :=
  call (Ev_webbrowser_open url) (fun w => w_webbrowser_open w url) (fun l => l).

Definition serve_forever (httpd : httpd_t) : py unit :=
  call Ev_serve_forever w_serve_forever (fun l => l).

Definition server_close (httpd : httpd_t) : py unit :=
  call Ev_server_close w_server_close (fun _ => Closed).

(** [try: body / except KeyboardInterrupt: handler]: any other
    exception goes on to the caller. *)
Definition try_except_KeyboardInterrupt {A : Type} (body handler : py A) : py A :=
  catch body (fun e => match e with
                       | KeyboardInterrupt => handler
                       | _ => raise e
                       end).

(** How the process ends.  The interpreter exits with status 0 when the
    script runs to its end, and with the status of [SystemExit] when
    that is what ends it; an exception of another class that nobody
    caught is reported on standard error as a traceback, with exit
    status 1.  Then the interpreter finalizes: when the flush of
    standard output fails there, the exit status is 120 instead.  An
    uncaught [KeyboardInterrupt] is reported too, and the process ends
    itself by SIGINT after the finalization, which shows as status
    128 + 2 whatever the flush did.  Standard error is taken to be
    writable. *)
Inductive finish : Type :=
| Exited (status : Z) (traceback : option exn)
| NeverExits.

Definition uncaught_status (e : exn) : Z :=
  match e with
  | KeyboardInterrupt => 130
  | SystemExit status => status
  | _ => 1
  end.

(** The traceback on standard error: none for [SystemExit]. *)
Definition traceback_of (e : exn) : option exn :=
  match e with
  | SystemExit _ => None
  | _ => Some e
  end.

Definition is_print (ev : event) : bool :=
  match ev with Ev_print _ => true | _ => false end.

(** The flush at finalization fails: something was printed, and the
    world makes the flush fail. *)
Definition flush_fails (w : world) (calls : list event) : bool :=
  List.existsb is_print calls && negb (w_exit_flush w).

Record run : Type := {
  events : list event;
  final_socket : listener;
  finished : finish
}.

Definition interpreter (script : py unit) (w : world) : run :=
  let '(p, r) := script w start in
  {| events := trace p;
     final_socket := socket p;
     finished :=
       match r with
       | Returns _ => Exited (if flush_fails w (trace p) then 120 else 0) None
       | Raises KeyboardInterrupt =>
           Exited (uncaught_status KeyboardInterrupt) (Some KeyboardInterrupt)
       | Raises e =>
           Exited (if flush_fails w (trace p) then 120 else uncaught_status e)
             (traceback_of e)
       | Hangs => NeverExits
       end |}.

End Runtime.

(** ** Python string methods the handler uses *)

Module PyStr.

Definition startswith (s p : string) : bool := String.prefix p s.

(** [s.endswith(p)] *)
Definition endswith (s p : string) : bool :=
  let n := String.length s in
  let k := String.length p in
  (k <=? n)%nat && String.eqb (substring (n - k) k s) p.

(** [s.lstrip(c)] for one character [c] *)
Fixpoint lstrip (c : ascii) (s : string) : string :=
  match s with
  | String a s' => if Ascii.eqb a c then lstrip c s' else s
  | EmptyString => EmptyString
  end.

(** [s.rstrip('\r\n')]: the trailing carriage returns and line feeds
    are removed. *)
Fixpoint rstrip_crlf (s : string) : string :=
  match s with
  | EmptyString => EmptyString
  | String a s' =>
      match rstrip_crlf s' with
      | EmptyString =>
          if Ascii.eqb a (ascii_of_nat 13) || Ascii.eqb a (ascii_of_nat 10)
          then EmptyString else String a EmptyString
      | t => String a t
      end
  end.

(** [str.isspace] on the characters of a string decoded as
    iso-8859-1. *)
Definition isspace (a : ascii) : bool :=
  let n := nat_of_ascii a in
  ((9 <=? n) && (n <=? 13) || (28 <=? n) && (n <=? 32)
   || (n =? 133) || (n =? 160))%nat.

(** [s.split()]: the words between runs of blanks. *)
Fixpoint split (s : string) : list string :=
  match s with
  | EmptyString => []
  | String a s' =>
      if isspace a then split s'
      else match s' with
           | EmptyString => [String a EmptyString]
           | String b _ =>
               if isspace b then String a EmptyString :: split s'
               else match split s' with
                    | w :: ws => String a w :: ws
                    | [] => [String a EmptyString]
                    end
           end
  end.

(** [s.split(c)] for one character [c] *)
Fixpoint split_on (c : ascii) (s : string) : list string :=
  match s with
  | EmptyString => [EmptyString]
  | String a s' =>
      if Ascii.eqb a c then EmptyString :: split_on c s'
      else match split_on c s' with
           | w :: ws => String a w :: ws
           | [] => [String a EmptyString]
           end
  end.

(** [s.lower()] on iso-8859-1 text *)
Definition lower_char (a : ascii) : ascii :=
  let n := nat_of_ascii a in
  if ((65 <=? n) && (n <=? 90)
      || (192 <=? n) && (n <=? 222) && negb (n =? 215))%nat
  then ascii_of_nat (n + 32) else a.

Fixpoint lower (s : string) : string :=
  match s with
  | EmptyString => EmptyString
  | String a s' => String (lower_char a) (lower s')
  end.

End PyStr.

(** ** http.server: the request handler

    The methods of [BaseHTTPRequestHandler] and
    [SimpleHTTPRequestHandler] that take part in answering a request,
    as functions on the attributes of the handler object.  Left out:
    the log lines on standard error, and reads and writes on the
    connection that fail or time out (then no response is sent). *)

Module HttpServer.
Import PyStr.

(** What the file system holds at a path: a regular file, with its
    bytes, its modification time in seconds, and whether the process may
    open it; or a directory, with its entries when the process may list
    it. *)
Inductive node : Type :=
| File (data : string) (st_mtime : Z) (readable : bool)
| Dir (entries : option (list string)).

(** What the handler reads from outside itself, and the library
    functions it calls whose results it only passes on.
    - [fs], [os_path_join], [getfilesystemencoding]: the operating
      system;
    - [valid_filename]: whether [open] takes the string as a file
      name; it does not when the string has a NUL byte or cannot be
      encoded, and such a string names nothing;
    - [fromtimestamp_ok]: whether [datetime.fromtimestamp] and
      [email.utils.formatdate] convert the time, which they do for
      the years 1 to 9999 at most;
    - [int]: the builtin, [None] when it raises [ValueError];
    - [repr]: the [%r] conversion of a string;
    - [version_string], [date_time_string]: the [Server] and [Date]
      header values ([date_time_string None] is the current time);
    - [error_message]: [error_message_format] filled with the code, the
      message and the explanation, encoded;
    - [translate_path]: the local path of a request path, under the
      working directory;
    - [urlsplit_path]: the path part of [urlsplit(self.path)];
      [add_slash]: the URL rebuilt with ['/'] after its path;
    - [guess_type]: the MIME type of a path;
    - [parsedate]: the [If-Modified-Since] value as seconds, [None]
      when it is ill-formed or in a time zone other than UTC;
    - [listing]: the encoded HTML page that lists a directory. *)
Record env : Type := {
  fs : string -> option node;
  valid_filename : string -> bool;
  fromtimestamp_ok : Z -> bool;
  os_path_join : string -> string -> string;
  getfilesystemencoding : string;
  int : string -> option Z;
  repr : string -> string;
  version_string : string;
  date_time_string : option Z -> string;
  error_message : Z -> string -> string -> string;
  translate_path : string -> string;
  urlsplit_path : string -> string;
  add_slash : string -> string;
  guess_type : string -> string;
  parsedate : string -> option Z;
  listing : string -> string -> list string -> string
}.

Definition isdir (e : env) (path : string) : bool :=
  match fs e path with Some (Dir _) => true | _ => false end.

Definition isfile (e : env) (path : string) : bool :=
  match fs e path with Some (File _ _ _) => true | _ => false end.

(** [open(path, 'rb')] followed by [os.fstat]: the bytes and the
    modification time of a file the process may read; [OSError] for a
    file it may not read, for a directory and for a name that is not
    there; [ValueError] for a string that is no file name. *)
Inductive opened : Type :=
| Opened (data : string) (st_mtime : Z)
| Open_OSError
| Open_ValueError.

Definition open_rb (e : env) (path : string) : opened :=
  match fs e path with
  | Some (File data mtime true) => Opened data mtime
  | Some _ => Open_OSError
  | None => if valid_filename e path then Open_OSError else Open_ValueError
  end.

(** [os.listdir(path)], [None] for [OSError] *)
Definition listdir (e : env) (path : string) : option (list string) :=
  match fs e path with
  | Some (Dir entries) => entries
  | _ => None
  end.

(** What is read from the connection: the request line, as
    [rfile.readline(65537)] returns it, and the header lines after it
    as [http.client.parse_headers] takes them. *)
Inductive header_block : Type :=
| Parsed (fields : list (string * string))
| LineTooLong (err : string)
| HTTPException (err : string).

(** [headers.get(name, "")]: the first field of that name, whatever
    the case of its letters. *)
Fixpoint headers_get (fields : list (string * string)) (name : string) : option string :=
  match fields with
  | [] => None
  | (k, v) :: rest =>
      if String.eqb (lower k) (lower name) then Some v else headers_get rest name
  end.

Definition headers_get_default (fields : list (string * string)) (name : string) : string :=
  match headers_get fields name with Some v => v | None => "" end.

(** [name in headers] *)
Definition headers_contains (fields : list (string * string)) (name : string) : bool :=
  match headers_get fields name with Some _ => true | None => false end.

(** What is written to the connection, in order: the header lines that
    [flush_headers] joins and writes at once, and pieces of a body. *)
Inductive chunk : Type :=
| Headers (lines : list string)
| Data (body : string).

(** The bytes of a chunk on the wire *)
Definition wire (c : chunk) : string :=
  match c with
  | Headers lines => String.concat "" lines
  | Data body => body
  end.

(** The attributes of a handler object.  [command] is [None] until the
    request line is parsed; [_headers_buffer] is the empty list when
    the attribute is not there yet.  [raised] is no attribute: it
    tells that an exception has left the method that was answering
    ([ValueError] of [open], or the error of a date conversion), so
    that the handler does nothing more. *)
Record request_handler : Type := {
  command : option string;
  path : string;
  request_version : string;
  headers : list (string * string);
  close_connection : bool;
  _headers_buffer : list string;
  wfile : list chunk;
  raised : bool
}.

Definition set_command c (self : request_handler) : request_handler :=
  {| command := c; path := path self; request_version := request_version self;
     headers := headers self; close_connection := close_connection self;
     _headers_buffer := _headers_buffer self; wfile := wfile self;
     raised := raised self |}.

Definition set_path p (self : request_handler) : request_handler :=
  {| command := command self; path := p; request_version := request_version self;
     headers := headers self; close_connection := close_connection self;
     _headers_buffer := _headers_buffer self; wfile := wfile self;
     raised := raised self |}.

Definition set_request_version v (self : request_handler) : request_handler :=
  {| command := command self; path := path self; request_version := v;
     headers := headers self; close_connection := close_connection self;
     _headers_buffer := _headers_buffer self; wfile := wfile self;
     raised := raised self |}.

Definition set_headers hs (self : request_handler) : request_handler :=
  {| command := command self; path := path self; request_version := request_version self;
     headers := hs; close_connection := close_connection self;
     _headers_buffer := _headers_buffer self; wfile := wfile self;
     raised := raised self |}.

Definition set_close_connection b (self : request_handler) : request_handler :=
  {| command := command self; path := path self; request_version := request_version self;
     headers := headers self; close_connection := b;
     _headers_buffer := _headers_buffer self; wfile := wfile self;
     raised := raised self |}.

Definition set_headers_buffer buf (self : request_handler) : request_handler :=
  {| command := command self; path := path self; request_version := request_version self;
     headers := headers self; close_connection := close_connection self;
     _headers_buffer := buf; wfile := wfile self; raised := raised self |}.

(** [self.wfile.write(...)] *)
Definition wfile_write (c : chunk) (self : request_handler) : request_handler :=
  {| command := command self; path := path self; request_version := request_version self;
     headers := headers self; close_connection := close_connection self;
     _headers_buffer := _headers_buffer self; wfile := wfile self ++ [c];
     raised := raised self |}.

(** An exception leaves the method. *)
Definition raise_uncaught (self : request_handler) : request_handler :=
  {| command := command self; path := path self; request_version := request_version self;
     headers := headers self; close_connection := close_connection self;
     _headers_buffer := _headers_buffer self; wfile := wfile self;
     raised := true |}.

(** A handler object before it reads its request. *)
Definition new_handler : request_handler :=
  {| command := None; path := ""; request_version := "";
     headers := []; close_connection := true;
     _headers_buffer := []; wfile := []; raised := false |}.

Definition default_request_version : string := "HTTP/0.9".
Definition protocol_version : string := "HTTP/1.0".
Definition error_content_type : string := "text/html;charset=utf-8".

(** The entries of [responses] for the status codes these classes
    send: the phrase and the description. *)
Definition responses (code : Z) : option (string * string) :=
  match code with
  | 100 => Some ("Continue", "Request received, please continue")
  | 200 => Some ("OK", "Request fulfilled, document follows")
  | 301 => Some ("Moved Permanently", "Object moved permanently -- see URI list")
  | 304 => Some ("Not Modified", "Document has not changed since given time")
  | 400 => Some ("Bad Request", "Bad request syntax or unsupported method")
  | 404 => Some ("Not Found", "Nothing matches the given URI")
  | 414 => Some ("Request-URI Too Long", "URI is too long")
  | 431 => Some ("Request Header Fields Too Large",
                 "The server is unwilling to process the request because its header fields are too large")
  | 501 => Some ("Not Implemented", "Server does not support this operation")
  | 505 => Some ("HTTP Version Not Supported", "Cannot fulfill request")
  | _ => None
  end%Z.

(** [BaseHTTPRequestHandler.send_response_only] *)
Definition send_response_only (code : Z) (message : option string)
    (self : request_handler) : request_handler :=
  if negb (String.eqb (request_version self) "HTTP/0.9") then
    let message :=
      match message with
      | Some m => m
      | None => match responses code with Some (phrase, _) => phrase | None => "" end
      end in
    set_headers_buffer
      (_headers_buffer self
         ++ [protocol_version ++ " " ++ str code ++ " " ++ message ++ CRLF])
      self
  else self.

(** [BaseHTTPRequestHandler.send_header] *)
Definition send_header (keyword value : string) (self : request_handler)
    : request_handler :=
  let self :=
    if negb (String.eqb (request_version self) "HTTP/0.9") then
      set_headers_buffer
        (_headers_buffer self ++ [keyword ++ ": " ++ value ++ CRLF]) self
    else self in
  if String.eqb (lower keyword) "connection" then
    if String.eqb (lower value) "close" then set_close_connection true self
    else if String.eqb (lower value) "keep-alive" then set_close_connection false self
    else self
  else self.

(** [BaseHTTPRequestHandler.flush_headers] *)
Definition flush_headers (self : request_handler) : request_handler :=
  set_headers_buffer [] (wfile_write (Headers (_headers_buffer self)) self).

(** [BaseHTTPRequestHandler.end_headers], which
    [SimpleHTTPRequestHandler] inherits as it is *)
Definition end_headers (self : request_handler) : request_handler :=
  if negb (String.eqb (request_version self) "HTTP/0.9") then
    flush_headers (set_headers_buffer (_headers_buffer self ++ [CRLF]) self)
  else self.

(** [BaseHTTPRequestHandler.send_response]; the log line it writes on
    standard error is left out. *)
Definition send_response (e : env) (code : Z) (message : option string)
    (self : request_handler) : request_handler :=
  let self := send_response_only code message self in
  let self := send_header "Server" (version_string e) self in
  send_header "Date" (date_time_string e None) self.

(** *** Methods that call [self.end_headers()]

    The library calls [end_headers] on the handler object, so a
    subclass that overrides it changes every response.  The methods
    below take the resolved method as [self_end_headers]. *)

Section Methods.

Variable self_end_headers : request_handler -> request_handler.
Variable e : env.

(** [BaseHTTPRequestHandler.send_error]; the log line is left out. *)
Definition send_error (code : Z) (message explain : option string)
    (self : request_handler) : request_handler :=
  let '(shortmsg, longmsg) :=
    match responses code with Some p => p | None => ("???", "???") end in
  let message := match message with Some m => m | None => shortmsg end in
  let explain := match explain with Some x => x | None => longmsg end in
  let self := send_response e code (Some message) self in
  let self := send_header "Connection" "close" self in
  let body :=
    if ((200 <=? code) && negb ((code =? 204) || (code =? 205) || (code =? 304)))%Z
    then Some (error_message e code message explain) else None in
  let self :=
    match body with
    | Some b =>
        let self := send_header "Content-Type" error_content_type self in
        send_header "Content-Length" (str (Z.of_nat (String.length b))) self
    | None => self
    end in
  let self := self_end_headers self in
  match body with
  | Some b =>
      if negb (match command self with Some c => String.eqb c "HEAD" | None => false end)
         && negb (String.eqb b "")
      then wfile_write (Data b) self else self
  | None => self
  end.

(** [BaseHTTPRequestHandler.handle_expect_100], which always returns
    [True] *)
Definition handle_expect_100 (self : request_handler) : request_handler :=
  self_end_headers (send_response_only 100 None self).

(** The [try] block of [parse_request] on the last word of the request
    line: the text after ["HTTP/"] and the two numbers in it, or [None]
    when [ValueError] is raised. *)
Definition version_number_of (version : string) : option (string * (Z * Z)) :=
  if startswith version "HTTP/" then
    let base_version_number := substring 5 (String.length version - 5) version in
    match split_on "." base_version_number with
    | [major; minor] =>
        match int e major, int e minor with
        | Some x, Some y => Some (base_version_number, (x, y))
        | _, _ => None
        end
    | _ => None
    end
  else None.

(** The path of a request that starts with ["//"] is reduced to one
    leading slash. *)
Definition single_slash (path : string) : string :=
  if startswith path "//" then "/" ++ lstrip "/" path else path.

(** [>=] on pairs of integers *)
Definition pair_ge (a b : Z * Z) : bool :=
  ((fst b <? fst a) || ((fst a =? fst b) && (snd b <=? snd a)))%Z.

(** [BaseHTTPRequestHandler.parse_request]: the result tells whether
    the request is to be served; when it is not, the error response is
    already sent. *)
Definition parse_request (raw_requestline : string) (hdrs : header_block)
    (self : request_handler) : bool * request_handler :=
  let self := set_command None self in
  let self := set_request_version default_request_version self in
  let self := set_close_connection true self in
  let requestline := rstrip_crlf raw_requestline in
  let words := split requestline in
  let n := List.length words in
  if (n =? 0)%nat then (false, self) else
  let versioned : bool * request_handler :=
    if (3 <=? n)%nat then
      let version := List.last words "" in
      match version_number_of version with
      | None =>
          (false, send_error 400
                    (Some ("Bad request version (" ++ repr e version ++ ")")) None self)
      | Some (base_version_number, version_number) =>
          let self :=
            if pair_ge version_number (1, 1)%Z && String.leb "HTTP/1.1" protocol_version
            then set_close_connection false self else self in
          if pair_ge version_number (2, 0)%Z then
            (false, send_error 505
                      (Some ("Invalid HTTP version (" ++ base_version_number ++ ")")) None self)
          else (true, set_request_version version self)
      end
    else (true, self) in
  let '(ok, self) := versioned in
  if negb ok then (false, self) else
  if negb ((2 <=? n) && (n <=? 3))%nat then
    (false, send_error 400
              (Some ("Bad request syntax (" ++ repr e requestline ++ ")")) None self)
  else
  let command := List.nth 0 words "" in
  let path := List.nth 1 words "" in
  let self := if (n =? 2)%nat then set_close_connection true self else self in
  if (n =? 2)%nat && negb (String.eqb command "GET") then
    (false, send_error 400
              (Some ("Bad HTTP/0.9 request type (" ++ repr e command ++ ")")) None self)
  else
  let self := set_path path (set_command (Some command) self) in
  let self := set_path (single_slash (HttpServer.path self)) self in
  match hdrs with
  | LineTooLong err =>
      (false, send_error 431 (Some "Line too long") (Some err) self)
  | HTTPException err =>
      (false, send_error 431 (Some "Too many headers") (Some err) self)
  | Parsed fields =>
      let self := set_headers fields self in
      let conntype := headers_get_default fields "Connection" in
      let self :=
        if String.eqb (lower conntype) "close" then set_close_connection true self
        else if String.eqb (lower conntype) "keep-alive"
                && String.leb "HTTP/1.1" protocol_version
             then set_close_connection false self
             else self in
      let expect := headers_get_default fields "Expect" in
      let self :=
        if String.eqb (lower expect) "100-continue"
           && String.leb "HTTP/1.1" protocol_version
           && String.leb "HTTP/1.1" (request_version self)
        then handle_expect_100 self else self in
      (true, self)
  end.

(** [SimpleHTTPRequestHandler.list_directory]: the listing to copy to
    the client, or [None] after an error response. *)
Definition list_directory (path : string) (self : request_handler)
    : option string * request_handler :=
  match listdir e path with
  | None =>
      (None, send_error 404 (Some "No permission to list directory") None self)
  | Some names =>
      let encoded := listing e path (HttpServer.path self) names in
      let self := send_response e 200 None self in
      let self :=
        send_header "Content-type"
          ("text/html; charset=" ++ getfilesystemencoding e) self in
      let self :=
        send_header "Content-Length" (str (Z.of_nat (String.length encoded))) self in
      (Some encoded, self_end_headers self)
  end.

(** The end of [SimpleHTTPRequestHandler.send_head], from
    [ctype = self.guess_type(path)] on: [path] is the file to send. *)
Definition send_file_head (path : string) (self : request_handler)
    : option string * request_handler :=
  let ctype := guess_type e path in
  if endswith path "/" then
    (None, send_error 404 (Some "File not found") None self)
  else
    match open_rb e path with
    | Open_ValueError => (None, raise_uncaught self)
    | Open_OSError => (None, send_error 404 (Some "File not found") None self)
    | Opened data st_mtime =>
        let compared :=
          if headers_contains (headers self) "If-Modified-Since"
             && negb (headers_contains (headers self) "If-None-Match")
          then
            match parsedate e (headers_get_default (headers self) "If-Modified-Since") with
            | Some ims =>
                if fromtimestamp_ok e st_mtime then Some (st_mtime <=? ims)%Z
                else None
            | None => Some false
            end
          else Some false in
        match compared with
        | None => (None, raise_uncaught self)
        | Some true =>
            (None, self_end_headers (send_response e 304 None self))
        | Some false =>
            let self := send_response e 200 None self in
            let self := send_header "Content-type" ctype self in
            let self :=
              send_header "Content-Length" (str (Z.of_nat (String.length data))) self in
            if fromtimestamp_ok e st_mtime then
              let self :=
                send_header "Last-Modified" (date_time_string e (Some st_mtime)) self in
              (Some data, self_end_headers self)
            else (None, raise_uncaught self)
        end
    end.

(** [SimpleHTTPRequestHandler.send_head]: the bytes to copy to the
    client, or [None] when there is nothing more to send. *)
Definition send_head (self : request_handler) : option string * request_handler :=
  let path := translate_path e (HttpServer.path self) in
  if isdir e path then
    if negb (endswith (urlsplit_path e (HttpServer.path self)) "/") then
      let self := send_response e 301 None self in
      let self := send_header "Location" (add_slash e (HttpServer.path self)) self in
      let self := send_header "Content-Length" "0" self in
      (None, self_end_headers self)
    else if isfile e (os_path_join e path "index.html") then
      send_file_head (os_path_join e path "index.html") self
    else if isfile e (os_path_join e path "index.htm") then
      send_file_head (os_path_join e path "index.htm") self
    else list_directory path self
  else send_file_head path self.

(** [SimpleHTTPRequestHandler.copyfile]: [shutil.copyfileobj] writes
    the bytes piece by piece, and nothing for an empty file; the pieces
    are kept together here. *)
Definition copyfile (source : string) (self : request_handler) : request_handler :=
  if String.eqb source "" then self else wfile_write (Data source) self.

(** [SimpleHTTPRequestHandler.do_GET] *)
Definition do_GET (self : request_handler) : request_handler :=
  match send_head self with
  | (Some f, self) => copyfile f self
  | (None, self) => self
  end.

(** [SimpleHTTPRequestHandler.do_HEAD] *)
Definition do_HEAD (self : request_handler) : request_handler :=
  snd (send_head self).

(** [BaseHTTPRequestHandler.handle_one_request] on a handler of a
    class with the methods [do_GET] and [do_HEAD], and no other
    [do_*]. *)
Definition handle_one_request (raw_requestline : string) (hdrs : header_block)
    (self : request_handler) : request_handler :=
  if (65536 <? Z.of_nat (String.length raw_requestline))%Z then
    send_error 414 None None (set_command (Some "") (set_request_version "" self))
  else if String.eqb raw_requestline "" then set_close_connection true self
  else
    match parse_request raw_requestline hdrs self with
    | (false, self) => self
    | (true, self) =>
        match command self with
        | Some c =>
            if String.eqb c "GET" then do_GET self
            else if String.eqb c "HEAD" then do_HEAD self
            else send_error 501
                   (Some ("Unsupported method (" ++ repr e c ++ ")")) None self
        | None => self
        end
    end.

(** [BaseHTTPRequestHandler.handle]: the first request of the
    connection, and the next ones while [close_connection] is false.
    [requests] is what the client sends on the connection; when it has
    no more, the read is empty and the connection is closed.  An
    exception that leaves [handle_one_request] leaves [handle] too. *)
Fixpoint handle_requests (requests : list (string * header_block))
    (self : request_handler) : request_handler :=
  match requests with
  | [] => set_close_connection true self
  | (raw_requestline, hdrs) :: rest =>
      let self := handle_one_request raw_requestline hdrs self in
      if close_connection self || raised self then self
      else handle_requests rest self
  end.

Definition handle (requests : list (string * header_block))
    (self : request_handler) : request_handler :=
  handle_requests requests (set_close_connection true self).

End Methods.

(** *** What a client reads *)

(** The body: the bytes written after the header lines. *)
Fixpoint body_of (written : list chunk) : string :=
  match written with
  | [] => ""
  | Data b :: rest => b ++ body_of rest
  | Headers _ :: rest => body_of rest
  end.

(** The header section: the lines of the first write, when it is one
    of [flush_headers]. *)
Definition head_of (written : list chunk) : option (list string) :=
  match written with
  | Headers lines :: _ => Some lines
  | _ => None
  end.

(** The status line of a response with the given code and phrase *)
Definition status_line (code : Z) (phrase : string) : string :=
  protocol_version ++ " " ++ str code ++ " " ++ phrase ++ CRLF.

(** The phrase [send_response_only] writes after the code: the message
    it is given, or the entry of [responses]. *)
Definition reason_phrase (code : Z) (message : option string) : string :=
  match message with
  | Some m => m
  | None => match responses code with Some (phrase, _) => phrase | None => "" end
  end.

(** The status line a client reads, when the response has one. *)
Definition response_status (written : list chunk) : option string :=
  match head_of written with
  | Some (first :: _) => Some first
  | _ => None
  end.

End HttpServer.

(** ** serve.py *)

Module Serve.
Import Runtime.

Definition PORT : Z := 8000.

(** [Handler.end_headers] *)
Definition Handler_end_headers (self : HttpServer.request_handler)
    : HttpServer.request_handler :=
  let self := HttpServer.send_header "Access-Control-Allow-Origin" "*" self in
  HttpServer.end_headers self.

Definition main : py unit :=
  let server_address := ("", PORT) in
  httpd <- HTTPServer server_address Handler ;;
  print ("Starting server at http://localhost:" ++ str PORT) ;;
  print "Press Ctrl+C to stop the server" ;;
  webbrowser_open ("http://localhost:" ++ str PORT) ;;
  try_except_KeyboardInterrupt
    (serve_forever httpd)
    (print (LF ++ "Server stopped") ;;
     server_close httpd).

(** [python serve.py]: the command line and the environment variables
    are there for the script to read ([sys.argv], [os.environ]); the
    module body defines [PORT] and [Handler] and calls [main()]. *)
Definition serve_py (argv : list string) (environ : list (string * string))
    (w : world) : run :=
  interpreter main w.

End Serve.


(** ** The server at work *)

Import Runtime HttpServer Serve.

(** What [self.end_headers] is on a handler of each class. *)
Definition end_headers_of (cls : RequestHandlerClass)
    : request_handler -> request_handler :=
  match cls with
  | Handler => Handler_end_headers
  | SimpleHTTPRequestHandler => HttpServer.end_headers
  end.

(** A server of class [cls] makes a handler object for a connection
    and lets it answer the request: the final state of the object. *)
Definition answer (cls : RequestHandlerClass) (e : env)
    (raw_requestline : string) (hdrs : header_block) : request_handler :=
  handle_one_request (end_headers_of cls) e raw_requestline hdrs new_handler.

(** What the client is sent. *)
Definition response (cls : RequestHandlerClass) (e : env)
    (raw_requestline : string) (hdrs : header_block) : list chunk :=
  wfile (answer cls e raw_requestline hdrs).

(** All that is done on one connection. *)
Definition connection (cls : RequestHandlerClass) (e : env)
    (requests : list (string * header_block)) : request_handler :=
  handle (end_headers_of cls) e requests new_handler.

(** The header line serve.py adds. *)
Definition cors_line : string := "Access-Control-Allow-Origin: *" ++ CRLF.

(** How often a line occurs among header lines. *)
Definition occurrences (line : string) (lines : list string) : nat :=
  List.length (List.filter (String.eqb line) lines).

Definition is_data (c : chunk) : bool :=
  match c with Data _ => true | Headers _ => false end.

(** Nothing but body bytes: no status line, no header. *)
Definition all_data (written : list chunk) : bool := List.forallb is_data written.

(** The response starts with one header section, which holds the
    header of serve.py exactly once, and the rest is the body. *)
Definition cors_once (written : list chunk) : bool :=
  match written with
  | Headers lines :: rest => (occurrences cors_line lines =? 1)%nat && all_data rest
  | _ => false
  end.

(** The response has a status line with this code. *)
Definition has_status (written : list chunk) (code : Z) : bool :=
  match response_status written with
  | Some line => PyStr.startswith line (protocol_version ++ " " ++ str code ++ " ")
  | None => false
  end.

(** A request line of three words, [command path version], of at most
    65536 bytes, whose version is a number below 2.0 and is not written
    [HTTP/0.9], followed by header lines that parse into [fields]. *)
Record plain_request (e : env) (raw_requestline : string) (hdrs : header_block)
    (command path version : string) (fields : list (string * string)) : Prop := {
  line_length : (Z.of_nat (String.length raw_requestline) <= 65536)%Z;
  line_words : PyStr.split (PyStr.rstrip_crlf raw_requestline) = [command; path; version];
  version_below_2 :
    exists base number,
      version_number_of e version = Some (base, number)
      /\ pair_ge number (2, 0)%Z = false;
  version_not_09 : version <> "HTTP/0.9";
  headers_parsed : hdrs = Parsed fields
}.

(** The test of [send_head] that answers 304: the request has
    [If-Modified-Since] and no [If-None-Match], the date parses, and the
    file is not newer. *)
Definition not_modified (e : env) (fields : list (string * string)) (st_mtime : Z) : bool :=
  if headers_contains fields "If-Modified-Since"
     && negb (headers_contains fields "If-None-Match")
  then
    match parsedate e (headers_get_default fields "If-Modified-Since") with
    | Some ims => (st_mtime <=? ims)%Z
    | None => false
    end
  else false.

(** ** States of a handler, for the proofs *)

(** A handler whose connection is to be closed after the request. *)
Definition closes (h : request_handler) : Prop := close_connection h = true.

(** A handler that has sent nothing yet, and whose buffer does not hold
    the header of serve.py. *)
Definition unanswered (h : request_handler) : Prop :=
  wfile h = [] /\ occurrences cors_line (_headers_buffer h) = 0%nat.

(** A handler that has answered: to an HTTP/0.9 request with body bytes
    only, to any other with one header section that holds the header of
    serve.py once. *)
Definition answered (h : request_handler) : Prop :=
  if String.eqb (request_version h) "HTTP/0.9"
  then all_data (wfile h) = true
  else cors_once (wfile h) = true.

(** The handler after a plain request is parsed. *)
Definition parsed_handler (command path version : string)
    (fields : list (string * string)) : request_handler :=
  {| command := Some command; path := single_slash path;
     request_version := version; headers := fields;
     close_connection := true; _headers_buffer := []; wfile := [];
     raised := false |}.

(** A handler that has begun its answer to a request in a version
    other than HTTP/0.9: nothing is written yet and [line] is the first
    line of the buffer. *)
Definition begun (h : request_handler) (line : string) : Prop :=
  String.eqb (request_version h) "HTTP/0.9" = false
  /\ wfile h = []
  /\ List.hd_error (_headers_buffer h) = Some line.

(** What was written reads as a response with this status line and
    this body. *)
Definition replied (written : list chunk) (line body : string) : Prop :=
  response_status written = Some line /\ body_of written = body.

(** ** A small site to run the server on *)

Module Demo.

(** ASCII digits to a number; enough of [int] for version numbers. *)
Fixpoint digits (s : string) (acc : Z) : option Z :=
  match s with
  | EmptyString => Some acc
  | String a s' =>
      let n := nat_of_ascii a in
      if ((48 <=? n) && (n <=? 57))%nat
      then digits s' (10 * acc + Z.of_nat (n - 48))
      else None
  end.

Definition demo_int (s : string) : option Z :=
  match s with EmptyString => None | _ => digits s 0 end.

(** The working directory [/srv] holds [index.html], a file [secret]
    that may not be read, and an empty directory [empty]. *)
Definition demo_fs (path : string) : option node :=
  if String.eqb path "/srv" then
    Some (Dir (Some ["ancient"; "empty"; "index.html"; "secret"]))
  else if String.eqb path "/srv/" then
    Some (Dir (Some ["ancient"; "empty"; "index.html"; "secret"]))
  else if String.eqb path "/srv/index.html" then Some (File "<h1>hi</h1>" 1700000000 true)
  else if String.eqb path "/srv/ancient" then Some (File "old" (-62135596801) true)
  else if String.eqb path "/srv/secret" then Some (File "x" 1700000000 false)
  else if String.eqb path "/srv/empty" then Some (Dir (Some []))
  else if String.eqb path "/srv/empty/" then Some (Dir (Some []))
  else None.

(** A file name has no NUL byte. *)
Definition no_nul (s : string) : bool :=
  negb (List.existsb (Ascii.eqb Ascii.zero) (list_ascii_of_string s)).

(** The first second of the year 1 and the last second of the year
    9999, in seconds since 1970. *)
Definition in_years_1_to_9999 (t : Z) : bool :=
  ((-62135596800 <=? t) && (t <=? 253402300799))%Z.

Definition site : env := {|
  fs := demo_fs;
  valid_filename := no_nul;
  fromtimestamp_ok := in_years_1_to_9999;
  os_path_join := fun a b => if PyStr.endswith a "/" then a ++ b else a ++ "/" ++ b;
  getfilesystemencoding := "utf-8";
  int := demo_int;
  repr := fun s => "'" ++ s ++ "'";
  version_string := "SimpleHTTP/0.6 Python/3.11.2";
  date_time_string := fun t =>
    match t with
    | None => "Tue, 03 Nov 2026 10:00:00 GMT"
    | Some _ => "Tue, 14 Nov 2023 22:13:20 GMT"
    end;
  error_message := fun code message explain =>
    "<p>Error code: " ++ str code ++ "</p><p>Message: " ++ message ++ ".</p>";
  translate_path := fun p => "/srv" ++ p;
  urlsplit_path := fun p => p;
  add_slash := fun p => p ++ "/";
  guess_type := fun _ => "text/html";
  parsedate := fun s =>
    if String.eqb s "Tue, 14 Nov 2023 22:13:20 GMT" then Some 1700000000%Z else None;
  listing := fun _ _ names => String.concat " " names
|}.

End Demo.

(** Requests to the demo site. *)
Definition get_index_11 : string := "GET /index.html HTTP/1.1" ++ CRLF.
Definition get_missing_11 : string := "GET /missing HTTP/1.1" ++ CRLF.


(** ** The process: start, serve, stop *)

(** What [main] prints and opens. *)
Definition url : string := "http://localhost:8000".
Definition announce_line : string := "Starting server at http://localhost:8000".
Definition stop_hint_line : string := "Press Ctrl+C to stop the server".
Definition stopped_line : string := LF ++ "Server stopped".

(** The calls of a start-up that goes through, in order. *)
Definition startup_events : list event :=
  [Ev_HTTPServer ("", 8000%Z) Handler;
   Ev_print announce_line;
   Ev_print stop_hint_line;
   Ev_webbrowser_open url].

(** A start-up that goes through: the listener is bound, both lines
    are printed, and the browser launcher returns, whatever it
    returns. *)
Definition startup_ok (w : world) : Prop :=
  w_HTTPServer w ("", 8000%Z) = Returns tt /\
  w_print w announce_line = Returns tt /\
  w_print w stop_hint_line = Returns tt /\
  exists launched, w_webbrowser_open w url = Returns launched.

Definition is_bind_at (a : string * Z) (ev : event) : bool :=
  match ev with
  | Ev_HTTPServer (host, port) _ => String.eqb host (fst a) && (port =? snd a)%Z
  | _ => true
  end.

(** An interrupt during start-up: the listener is bound, and one of
    the two prints or the browser launch, the calls before the [try]
    block, raises [KeyboardInterrupt]. *)
Definition interrupted_in_startup (w : world) : Prop :=
  w_HTTPServer w ("", 8000%Z) = Returns tt /\
  (w_print w announce_line = Raises KeyboardInterrupt
   \/ (w_print w announce_line = Returns tt /\
       w_print w stop_hint_line = Raises KeyboardInterrupt)
   \/ (w_print w announce_line = Returns tt /\
       w_print w stop_hint_line = Returns tt /\
       w_webbrowser_open w url = Raises KeyboardInterrupt)).

(** Worlds to run the script in: every call returns, the browser is
    launched or not, and the serving loop ends as [serving] says. *)
Definition fair_weather (launched : bool) (serving : outcome unit) : world := {|
  w_HTTPServer := fun _ => Returns tt;
  w_print := fun _ => Returns tt;
  w_webbrowser_open := fun _ => Returns launched;
  w_serve_forever := serving;
  w_server_close := Returns tt;
  w_exit_flush := true
|}.


(** Ctrl+C while the browser is being launched. *)
Definition interrupt_at_browser : world := {|
  w_HTTPServer := fun _ => Returns tt;
  w_print := fun _ => Returns tt;
  w_webbrowser_open := fun _ => Raises KeyboardInterrupt;
  w_serve_forever := Hangs;
  w_server_close := Returns tt;
  w_exit_flush := true
|}.

(** The browser launcher raises: [webbrowser.open] starts some
    browsers with [subprocess.Popen] outside any [try], so an [OSError]
    of the launch (it is not permitted, the program is gone) comes
    out of the call. *)
Definition browser_launch_raises : world := {|
  w_HTTPServer := fun _ => Returns tt;
  w_print := fun _ => Returns tt;
  w_webbrowser_open := fun _ => Raises (OSError "[Errno 13] Permission denied: 'firefox'");
  w_serve_forever := Hangs;
  w_server_close := Returns tt;
  w_exit_flush := true
|}.

(** The serving loop ends with an exception other than
    [KeyboardInterrupt]. *)
Definition select_fails : world :=
  fair_weather true (Raises (OSError "[Errno 9] Bad file descriptor")).

(** The header lines with the line of serve.py put before the last
    one, the blank line. *)
Fixpoint with_cors (lines : list string) : list string :=
  match lines with
  | [] => []
  | [final] => [cors_line; final]
  | line :: rest => line :: with_cors rest
  end.

Definition add_cors (c : chunk) : chunk :=
  match c with
  | Headers lines => Headers (with_cors lines)
  | Data body => Data body
  end.

(** A handler with the line of serve.py put into every header section
    it has written, and nothing else changed. *)
Definition with_cors_written (h : request_handler) : request_handler :=
  {| command := command h; path := path h; request_version := request_version h;
     headers := headers h; close_connection := close_connection h;
     _headers_buffer := _headers_buffer h;
     wfile := List.map add_cors (wfile h);
     raised := raised h |}.

(** A header section ends with the line of serve.py and the blank
    line. *)
Definition cors_is_last (lines : list string) : Prop :=
  exists before, lines = (before ++ [cors_line; CRLF])%list.

(** A header section ends with the blank line. *)
Definition blank_is_last (lines : list string) : Prop :=
  exists before, lines = (before ++ [CRLF])%list.

(** Every header section the handler has written is as [P] says. *)
Definition sections_are (P : list string -> Prop) (h : request_handler) : Prop :=
  forall lines, In (Headers lines) (wfile h) -> P lines.



(** More requests to the demo site. *)
Definition head_index_11 : string := "HEAD /index.html HTTP/1.1" ++ CRLF.

(** A path with a NUL byte in it, and a file whose modification time
    is one second before the year 1. *)
Definition get_nul_11 : string :=
  "GET /a" ++ String Ascii.zero "b" ++ " HTTP/1.1" ++ CRLF.
Definition get_ancient_11 : string := "GET /ancient HTTP/1.1" ++ CRLF.



(** Standard output is a pipe nobody reads any more: every print
    returns, with its line in the buffer, and the flush at finalization
    fails. *)
Definition stdout_unwritable (serving : outcome unit) : world := {|
  w_HTTPServer := fun _ => Returns tt;
  w_print := fun _ => Returns tt;
  w_webbrowser_open := fun _ => Returns true;
  w_serve_forever := serving;
  w_server_close := Returns tt;
  w_exit_flush := false
|}.



(** * Proofs *)

(** ** The process *)

Ltac run_main :=
  unfold serve_py, interpreter, main, try_except_KeyboardInterrupt,
    HTTPServer, print, webbrowser_open, serve_forever, server_close, call, PORT;
  unfold announce_line, stop_hint_line, url, stopped_line, startup_events in *;
  cbn in *.

Ltac case_call t := destruct t as [?|?|] eqn:?; cbn.

Ltac unit_values :=
  repeat match goal with
         | a : unit |- _ => destruct a
         end.

(** Case analysis on the outcomes of the calls, in program order. *)
Ltac by_outcome w :=
  run_main;
  repeat first
    [ match goal with
      | |- context [w_HTTPServer w ?a] => case_call (w_HTTPServer w a)
      end
    | match goal with
      | |- context [w_print w ?s] => case_call (w_print w s)
      end
    | match goal with
      | |- context [w_webbrowser_open w ?u] => case_call (w_webbrowser_open w u)
      end
    | match goal with
      | |- context [w_serve_forever w] => case_call (w_serve_forever w)
      end
    | match goal with
      | |- context [match ?e with KeyboardInterrupt => _ | _ => _ end] =>
          destruct e; cbn
      end
    | match goal with
      | |- context [w_server_close w] => case_call (w_server_close w)
      end ].

(** Whatever the environment does, the calls of a run are the first
    calls of one fixed sequence. *)
Lemma events_in_order (argv : list string) (environ : list (string * string))
    (w : world) :
  exists rest,
    (events (serve_py argv environ w) ++ rest
     = startup_events ++ [Ev_serve_forever; Ev_print stopped_line; Ev_server_close])%list.
Proof.
  by_outcome w; eexists; reflexivity.
Qed.

(** C4: the first call of every run, whatever the command line and the
    environment variables, binds the listener at [('', 8000)]; no call
    of the run binds at another address, the run is the one of an empty
    command line and an empty environment, and a process that still
    listens at its end listens there.  When the constructor returns,
    the process has a listener at [('', 8000)], and it has it to its
    end unless [server_close] was the last call and returned; when the
    constructor does not return, there is no socket and no other
    call. *)
Theorem port_is_fixed (argv : list string) (environ : list (string * string))
    (w : world) :
  let r := serve_py argv environ w in
  List.hd_error (events r) = Some (Ev_HTTPServer ("", 8000%Z) Handler)
  /\ List.forallb (is_bind_at ("", 8000%Z)) (events r) = true
  /\ r = serve_py [] [] w
  /\ (final_socket r = NoSocket \/ final_socket r = Listening ("", 8000%Z)
      \/ final_socket r = Closed)
  /\ (w_HTTPServer w ("", 8000%Z) = Returns tt ->
      socket (fst (HTTPServer ("", PORT) Handler w start)) = Listening ("", 8000%Z)
      /\ (final_socket r = Listening ("", 8000%Z)
          \/ (final_socket r = Closed
              /\ w_server_close w = Returns tt
              /\ List.last (events r) Ev_serve_forever = Ev_server_close)))
  /\ (w_HTTPServer w ("", 8000%Z) <> Returns tt ->
      final_socket r = NoSocket
      /\ events r = [Ev_HTTPServer ("", 8000%Z) Handler]).
Proof.
  cbv zeta.
  assert (Hsocket : w_HTTPServer w ("", 8000%Z) = Returns tt ->
                    socket (fst (HTTPServer ("", PORT) Handler w start))
                    = Listening ("", 8000%Z)).
  { intros H. unfold HTTPServer, call, PORT; cbn. rewrite H. reflexivity. }
  revert Hsocket.
  by_outcome w; intros Hsocket; unit_values;
    (split; [reflexivity |]); (split; [reflexivity |]); (split; [reflexivity |]);
    (split; [auto |]);
    (split;
     [ intros H; first [ discriminate H | split; [exact (Hsocket H) |]; auto ]
     | intros H; first [ split; reflexivity | exfalso; apply H; reflexivity ] ]).
Qed.

Lemma port_is_fixed_witness :
  let r := serve_py ["--port"; "9000"] [("PORT", "9000")] (fair_weather true Hangs) in
  List.hd_error (events r) = Some (Ev_HTTPServer ("", 8000%Z) Handler)
  /\ final_socket r = Listening ("", 8000%Z).
Proof.
  destruct (port_is_fixed ["--port"; "9000"] [("PORT", "9000")] (fair_weather true Hangs))
    as (Hhd & _ & _ & _ & Hbound & _).
  split; [exact Hhd |].
  destruct (Hbound eq_refl) as [_ [H | [H _]]]; [exact H | discriminate H].
Defined.

(** C8: on every start-up that goes through, the calls come in this
    order: the listener is bound, the line with the URL
    http://localhost:8000 is printed, then the line that tells how to
    stop, then the browser is opened at that URL, and only then the
    serving loop is entered. *)
Theorem startup_order (argv : list string) (environ : list (string * string))
    (w : world) :
  startup_ok w ->
  exists rest,
    events (serve_py argv environ w)
    = (startup_events ++ Ev_serve_forever :: rest)%list.
Proof.
  intros (Hbind & Hp1 & Hp2 & launched & Hopen).
  run_main. rewrite Hbind; cbn. rewrite Hp1; cbn. rewrite Hp2; cbn.
  rewrite Hopen; cbn.
  by_outcome w; eexists; reflexivity.
Qed.

Lemma startup_order_witness :
  startup_ok (fair_weather true Hangs) /\
  exists rest,
    events (serve_py [] [] (fair_weather true Hangs))
    = (startup_events ++ Ev_serve_forever :: rest)%list.
Proof.
  assert (H : startup_ok (fair_weather true Hangs)).
  { unfold startup_ok; cbn; repeat split; eauto. }
  split; [exact H | exact (startup_order [] [] (fair_weather true Hangs) H)].
Defined.

(** C7 fails as stated: the call of [webbrowser.open] is outside any
    [try], so when the launch raises, the exception leaves [main]: the
    serving loop is never entered and the process exits with
    status 1. *)
Lemma browser_exception_is_fatal :
  let r := serve_py [] [] browser_launch_raises in
  r = {| events := startup_events;
         final_socket := Listening ("", 8000%Z);
         finished := Exited 1 (Some (OSError "[Errno 13] Permission denied: 'firefox'")) |}
  /\ ~ In Ev_serve_forever (events r).
Proof.
  cbv zeta. split; [reflexivity |].
  vm_compute. intuition discriminate.
Qed.

(** C7, as the code has it: whatever the browser launch returns,
    [True] for a browser that was launched or [False] for none (no
    display, no browser), the serving loop is entered next, and a
    server nobody interrupts keeps listening and never exits. *)
Theorem browser_result_is_ignored (argv : list string)
    (environ : list (string * string)) (w : world) (launched : bool) :
  w_HTTPServer w ("", 8000%Z) = Returns tt ->
  w_print w announce_line = Returns tt ->
  w_print w stop_hint_line = Returns tt ->
  w_webbrowser_open w url = Returns launched ->
  let r := serve_py argv environ w in
  In Ev_serve_forever (events r)
  /\ (w_serve_forever w = Hangs ->
      r = {| events := (startup_events ++ [Ev_serve_forever])%list;
             final_socket := Listening ("", 8000%Z);
             finished := NeverExits |}).
Proof.
  intros Hbind Hp1 Hp2 Hopen.
  run_main. rewrite Hbind; cbn. rewrite Hp1; cbn. rewrite Hp2; cbn.
  rewrite Hopen; cbn.
  split.
  - by_outcome w; repeat (first [left; reflexivity | right]).
  - intros Hserve. rewrite Hserve; cbn. reflexivity.
Qed.

Lemma browser_result_is_ignored_witness :
  let r := serve_py [] [] (fair_weather false Hangs) in
  In Ev_serve_forever (events r)
  /\ r = {| events := (startup_events ++ [Ev_serve_forever])%list;
            final_socket := Listening ("", 8000%Z);
            finished := NeverExits |}.
Proof.
  pose proof (browser_result_is_ignored [] [] (fair_weather false Hangs) false
                eq_refl eq_refl eq_refl eq_refl) as [Hin Hrun].
  split; [exact Hin | exact (Hrun eq_refl)].
Defined.

(** C5 fails as stated: when standard output is a pipe whose reader
    is gone, the interrupt path is taken to its end, and the flush of
    the buffered lines fails when the interpreter finalizes: the exit
    status is 120. *)
Lemma interrupted_exit_is_120 :
  startup_ok (stdout_unwritable (Raises KeyboardInterrupt))
  /\ w_serve_forever (stdout_unwritable (Raises KeyboardInterrupt))
     = Raises KeyboardInterrupt
  /\ serve_py [] [] (stdout_unwritable (Raises KeyboardInterrupt))
     = {| events := (startup_events
                     ++ [Ev_serve_forever; Ev_print stopped_line; Ev_server_close])%list;
          final_socket := Closed;
          finished := Exited 120 None |}.
Proof.
  split; [| split; reflexivity].
  unfold startup_ok; cbn; repeat split; eauto.
Qed.

(** C5, as the code has it: when Ctrl+C arrives while the server is
    serving, [serve_forever] is left; when the print of the notice
    "Server stopped" and then [server_close] return, the listener
    socket is closed and the process exits, with status 0 when the
    flush of standard output at the end succeeds and with status 120
    when it fails. *)
Theorem interrupt_while_serving (argv : list string)
    (environ : list (string * string)) (w : world) :
  startup_ok w ->
  w_serve_forever w = Raises KeyboardInterrupt ->
  w_print w stopped_line = Returns tt ->
  w_server_close w = Returns tt ->
  serve_py argv environ w
  = {| events := (startup_events
                  ++ [Ev_serve_forever; Ev_print stopped_line; Ev_server_close])%list;
       final_socket := Closed;
       finished := Exited (if w_exit_flush w then 0 else 120) None |}.
Proof.
  intros (Hbind & Hp1 & Hp2 & launched & Hopen) Hserve Hp3 Hclose.
  run_main. rewrite Hbind; cbn. rewrite Hp1; cbn. rewrite Hp2; cbn.
  rewrite Hopen; cbn. rewrite Hserve; cbn.
  rewrite Hp3; cbn. rewrite Hclose; cbn.
  destruct (w_exit_flush w); reflexivity.
Qed.

Lemma interrupt_while_serving_witness :
  serve_py [] [] (fair_weather true (Raises KeyboardInterrupt))
  = {| events := (startup_events
                  ++ [Ev_serve_forever; Ev_print stopped_line; Ev_server_close])%list;
       final_socket := Closed;
       finished := Exited 0 None |}.
Proof.
  refine (interrupt_while_serving [] [] (fair_weather true (Raises KeyboardInterrupt))
            _ _ _ _).
  - unfold startup_ok; cbn; repeat split; eauto.
  - reflexivity.
  - reflexivity.
  - reflexivity.
Defined.



(** C9 fails as stated: when [serve_forever] ends with [OSError], the
    exception leaves [main], the process exits with status 1, and
    [server_close] was never called: the socket is still listening. *)
Lemma no_close_on_other_exception :
  let r := serve_py [] [] select_fails in
  r = {| events := (startup_events ++ [Ev_serve_forever])%list;
         final_socket := Listening ("", 8000%Z);
         finished := Exited 1 (Some (OSError "[Errno 9] Bad file descriptor")) |}
  /\ In Ev_serve_forever (events r)
  /\ ~ In Ev_server_close (events r).
Proof.
  cbv zeta. split; [reflexivity |]. split.
  - vm_compute. intuition.
  - vm_compute. intuition discriminate.
Qed.

(** C9, as the code has it: when the serving loop is left by
    [KeyboardInterrupt] and the notice is printed, [server_close] is
    called, as the last call of the run; when it returns the socket is
    closed and the process exits, with status 0 when the flush of
    standard output at the end succeeds and with status 120 when it
    fails. *)
Theorem close_on_interrupt (argv : list string) (environ : list (string * string))
    (w : world) :
  startup_ok w ->
  w_serve_forever w = Raises KeyboardInterrupt ->
  w_print w stopped_line = Returns tt ->
  let r := serve_py argv environ w in
  events r
  = (startup_events ++ [Ev_serve_forever; Ev_print stopped_line; Ev_server_close])%list
  /\ (w_server_close w = Returns tt ->
      final_socket r = Closed
      /\ finished r = Exited (if w_exit_flush w then 0 else 120) None).
Proof.
  intros (Hbind & Hp1 & Hp2 & launched & Hopen) Hserve Hp3.
  run_main. rewrite Hbind; cbn. rewrite Hp1; cbn. rewrite Hp2; cbn.
  rewrite Hopen; cbn. rewrite Hserve; cbn. rewrite Hp3; cbn.
  split; [reflexivity |].
  intros Hclose. rewrite Hclose. cbn.
  split; [reflexivity | destruct (w_exit_flush w); reflexivity].
Qed.

Lemma close_on_interrupt_witness :
  let r := serve_py [] [] (fair_weather false (Raises KeyboardInterrupt)) in
  events r
  = (startup_events ++ [Ev_serve_forever; Ev_print stopped_line; Ev_server_close])%list
  /\ final_socket r = Closed /\ finished r = Exited 0 None.
Proof.
  pose proof (close_on_interrupt [] [] (fair_weather false (Raises KeyboardInterrupt)))
    as H.
  assert (Hs : startup_ok (fair_weather false (Raises KeyboardInterrupt))).
  { unfold startup_ok; cbn; repeat split; eauto. }
  destruct (H Hs eq_refl eq_refl) as [Hev Hclose].
  split; [exact Hev | exact (Hclose eq_refl)].
Defined.

(** C10: a [KeyboardInterrupt] raised after the listener is bound and
    before the [try] block, in one of the two prints or in the browser
    launch, is not caught: the run has no "Server stopped" line, no
    [server_close] and no [serve_forever], the socket is still
    listening when the process ends, and the exit status is not 0. *)
Theorem interrupt_during_startup (argv : list string)
    (environ : list (string * string)) (w : world) :
  interrupted_in_startup w ->
  let r := serve_py argv environ w in
  ~ In (Ev_print stopped_line) (events r)
  /\ ~ In Ev_server_close (events r)
  /\ ~ In Ev_serve_forever (events r)
  /\ final_socket r = Listening ("", 8000%Z)
  /\ finished r = Exited (uncaught_status KeyboardInterrupt) (Some KeyboardInterrupt)
  /\ uncaught_status KeyboardInterrupt <> 0%Z.
Proof.
  intros (Hbind & [Hp1 | [(Hp1 & Hp2) | (Hp1 & Hp2 & Hopen)]]);
    run_main; rewrite Hbind; cbn; rewrite Hp1; cbn;
    try (rewrite Hp2; cbn); try (rewrite Hopen; cbn);
    repeat split; try (intros H; cbn in H; intuition discriminate);
    discriminate.
Qed.

Lemma interrupt_during_startup_witness :
  let r := serve_py [] [] interrupt_at_browser in
  ~ In (Ev_print stopped_line) (events r)
  /\ ~ In Ev_server_close (events r)
  /\ ~ In Ev_serve_forever (events r)
  /\ final_socket r = Listening ("", 8000%Z)
  /\ finished r = Exited (uncaught_status KeyboardInterrupt) (Some KeyboardInterrupt)
  /\ uncaught_status KeyboardInterrupt <> 0%Z.
Proof.
  apply (interrupt_during_startup [] [] interrupt_at_browser).
  split; [reflexivity |].
  right; right. repeat split; reflexivity.
Defined.

(** ** The responses *)

Lemma occurrences_app (line : string) (l1 l2 : list string) :
  occurrences line (l1 ++ l2)%list = (occurrences line l1 + occurrences line l2)%nat.
Proof.
  unfold occurrences. rewrite List.filter_app, List.length_app. reflexivity.
Qed.

Lemma send_header_frame (k v : string) (h : request_handler) :
  request_version (send_header k v h) = request_version h
  /\ command (send_header k v h) = command h
  /\ path (send_header k v h) = path h
  /\ headers (send_header k v h) = headers h
  /\ wfile (send_header k v h) = wfile h
  /\ _headers_buffer (send_header k v h)
     = if String.eqb (request_version h) "HTTP/0.9" then _headers_buffer h
       else (_headers_buffer h ++ [(k ++ ": " ++ v ++ CRLF)%string])%list.
Proof.
  unfold send_header.
  destruct (String.eqb (request_version h) "HTTP/0.9");
    destruct (String.eqb (PyStr.lower k) "connection");
    destruct (String.eqb (PyStr.lower v) "close");
    destruct (String.eqb (PyStr.lower v) "keep-alive");
    cbn; repeat split; reflexivity.
Qed.

Lemma send_response_only_frame (code : Z) (m : option string) (h : request_handler) :
  request_version (send_response_only code m h) = request_version h
  /\ command (send_response_only code m h) = command h
  /\ path (send_response_only code m h) = path h
  /\ headers (send_response_only code m h) = headers h
  /\ wfile (send_response_only code m h) = wfile h
  /\ _headers_buffer (send_response_only code m h)
     = if String.eqb (request_version h) "HTTP/0.9" then _headers_buffer h
       else (_headers_buffer h
             ++ [status_line code (reason_phrase code m)])%list.
Proof.
  unfold send_response_only.
  destruct (String.eqb (request_version h) "HTTP/0.9"); cbn; repeat split; reflexivity.
Qed.

Lemma unanswered_send_header (k v : string) (h : request_handler) :
  String.eqb cors_line (k ++ ": " ++ v ++ CRLF) = false ->
  unanswered h -> unanswered (send_header k v h).
Proof.
  intros Hline [Hw Hb].
  destruct (send_header_frame k v h) as (_ & _ & _ & _ & Hw' & Hb').
  split; [congruence |].
  rewrite Hb'. destruct (String.eqb (request_version h) "HTTP/0.9"); [exact Hb |].
  rewrite occurrences_app, Hb. unfold occurrences. cbn [List.filter].
  rewrite Hline. reflexivity.
Qed.

Lemma unanswered_send_response_only (code : Z) (m : option string) (h : request_handler) :
  unanswered h -> unanswered (send_response_only code m h).
Proof.
  intros [Hw Hb].
  destruct (send_response_only_frame code m h) as (_ & _ & _ & _ & Hw' & Hb').
  split; [congruence |].
  rewrite Hb'. destruct (String.eqb (request_version h) "HTTP/0.9"); [exact Hb |].
  rewrite occurrences_app, Hb. reflexivity.
Qed.

(** The sends before [end_headers] leave the handler unanswered. *)
Ltac still_unanswered :=
  repeat match goal with
         | |- unanswered (send_response _ _ _ _) => unfold send_response
         | |- unanswered (send_response_only _ _ _) =>
             apply unanswered_send_response_only
         | |- unanswered (send_header _ _ _) =>
             apply unanswered_send_header; [reflexivity |]
         | |- unanswered _ => assumption
         end.

Lemma Handler_end_headers_frame (h : request_handler) :
  request_version (Handler_end_headers h) = request_version h
  /\ command (Handler_end_headers h) = command h
  /\ wfile (Handler_end_headers h)
     = if String.eqb (request_version h) "HTTP/0.9" then wfile h
       else (wfile h ++ [Headers (_headers_buffer h ++ [cors_line; CRLF])])%list.
Proof.
  unfold Handler_end_headers, end_headers, flush_headers.
  destruct (send_header_frame "Access-Control-Allow-Origin" "*" h)
    as (Hv & Hc & _ & _ & Hw & Hb).
  rewrite Hv.
  destruct (String.eqb (request_version h) "HTTP/0.9"); cbn.
  - auto.
  - rewrite Hv, Hc, Hw, Hb, <- List.app_assoc. auto.
Qed.

Lemma answered_end_headers (h : request_handler) :
  unanswered h -> answered (Handler_end_headers h).
Proof.
  intros [Hw Hb]. unfold answered.
  destruct (Handler_end_headers_frame h) as (Hv & _ & Hw').
  rewrite Hv, Hw', Hw.
  destruct (String.eqb (request_version h) "HTTP/0.9"); [reflexivity |].
  cbn [List.app cors_once all_data List.forallb].
  rewrite occurrences_app, Hb. reflexivity.
Qed.

Lemma all_data_app (w1 w2 : list chunk) :
  all_data (w1 ++ w2)%list = all_data w1 && all_data w2.
Proof. apply List.forallb_app. Qed.

Lemma answered_write (b : string) (h : request_handler) :
  answered h -> answered (wfile_write (Data b) h).
Proof.
  unfold answered, wfile_write; cbn.
  destruct (String.eqb (request_version h) "HTTP/0.9").
  - intros H. rewrite all_data_app, H. reflexivity.
  - destruct (wfile h) as [| [lines | d] rest]; cbn; try discriminate.
    intros H. apply andb_prop in H as [H1 H2].
    rewrite H1, all_data_app, H2. reflexivity.
Qed.

Lemma answered_send_error (e : env) (code : Z) (m x : option string)
    (h : request_handler) :
  unanswered h -> answered (send_error Handler_end_headers e code m x h).
Proof.
  intros H. unfold send_error.
  destruct (responses code) as [[shortmsg longmsg] |];
    destruct ((200 <=? code)%Z && negb ((code =? 204)%Z || (code =? 205)%Z || (code =? 304)%Z));
    match goal with
    | |- answered (if ?c then _ else _) =>
        destruct c; [apply answered_write |]
    | _ => idtac
    end;
    apply answered_end_headers;
    still_unanswered.
Qed.

Lemma answered_list_directory (e : env) (p : string) (h : request_handler) :
  unanswered h -> answered (snd (list_directory Handler_end_headers e p h)).
Proof.
  intros H. unfold list_directory.
  destruct (listdir e p); cbn [snd].
  - apply answered_end_headers.
    still_unanswered.
  - apply answered_send_error; exact H.
Qed.

Lemma unanswered_raise_uncaught (h : request_handler) :
  unanswered h -> unanswered (raise_uncaught h).
Proof. intros H. exact H. Qed.

(** What [send_head] leaves: a response, or nothing at all when an
    exception left it, and then it returns no file. *)
Definition answered_or_raised (r : option string * request_handler) : Prop :=
  answered (snd r) \/ (fst r = None /\ unanswered (snd r)).

Lemma answered_send_file_head (e : env) (p : string) (h : request_handler) :
  unanswered h -> answered_or_raised (send_file_head Handler_end_headers e p h).
Proof.
  intros H. unfold send_file_head, answered_or_raised.
  destruct (PyStr.endswith p "/");
    [left; apply answered_send_error; exact H |].
  destruct (open_rb e p) as [data st_mtime | |];
    [| left; apply answered_send_error; exact H
     | right; split; [reflexivity | exact H]].
  cbv zeta.
  match goal with
  | |- context [match ?c with Some _ => _ | None => _ end] => destruct c as [[|] |]
  end.
  - left. cbn [snd]. apply answered_end_headers. still_unanswered.
  - destruct (fromtimestamp_ok e st_mtime); cbn [fst snd].
    + left. apply answered_end_headers. still_unanswered.
    + right. split; [reflexivity |].
      apply unanswered_raise_uncaught. still_unanswered.
  - right. split; [reflexivity | exact H].
Qed.

Lemma answered_send_head (e : env) (h : request_handler) :
  unanswered h -> answered_or_raised (send_head Handler_end_headers e h).
Proof.
  intros H. unfold send_head.
  destruct (isdir e (translate_path e (path h))); [| apply answered_send_file_head; exact H].
  destruct (negb (PyStr.endswith (urlsplit_path e (path h)) "/")).
  - left. cbn [snd]. apply answered_end_headers.
    still_unanswered.
  - destruct (isfile e (os_path_join e (translate_path e (path h)) "index.html"));
      [apply answered_send_file_head; exact H |].
    destruct (isfile e (os_path_join e (translate_path e (path h)) "index.htm"));
      [apply answered_send_file_head; exact H |].
    left. apply answered_list_directory; exact H.
Qed.

Lemma answered_do_GET (e : env) (h : request_handler) :
  unanswered h ->
  unanswered (do_GET Handler_end_headers e h)
  \/ answered (do_GET Handler_end_headers e h).
Proof.
  intros H. unfold do_GET, copyfile.
  pose proof (answered_send_head e h H) as Ha. unfold answered_or_raised in Ha.
  destruct (send_head Handler_end_headers e h) as [[f |] h']; cbn [fst snd] in Ha.
  - destruct Ha as [Ha | [Hf _]]; [| discriminate Hf].
    right. destruct (String.eqb f ""); [exact Ha | apply answered_write; exact Ha].
  - destruct Ha as [Ha | [_ Hu]]; [right; exact Ha | left; exact Hu].
Qed.

Lemma answered_do_HEAD (e : env) (h : request_handler) :
  unanswered h ->
  unanswered (do_HEAD Handler_end_headers e h)
  \/ answered (do_HEAD Handler_end_headers e h).
Proof.
  intros H. unfold do_HEAD.
  destruct (answered_send_head e h H) as [Ha | [_ Hu]];
    [right; exact Ha | left; exact Hu].
Qed.

Lemma protocol_below_1_1 (b c : bool) :
  b && String.leb "HTTP/1.1" protocol_version && c = false.
Proof. destruct b; reflexivity. Qed.

Ltac setters_unanswered H :=
  unfold unanswered in *; cbn; exact H.

(** Case analysis on a test that has no test inside it. *)
Ltac atomic_test c :=
  lazymatch c with
  | context [if _ then _ else _] => fail
  | context [match _ with _ => _ end] => fail
  | _ => destruct c eqn:?; cbn [negb fst snd]
  end.

Ltac split_tests :=
  repeat match goal with
         | |- context [?b && String.leb "HTTP/1.1" protocol_version && ?c] =>
             rewrite (protocol_below_1_1 b c)
         | |- context [if ?c then _ else _] => atomic_test c
         | |- context [match ?x with _ => _ end] => atomic_test x
         end.

Lemma parse_request_answers (e : env) (raw : string) (hdrs : header_block)
    (h : request_handler) :
  unanswered h ->
  let r := parse_request Handler_end_headers e raw hdrs h in
  if fst r then unanswered (snd r) else unanswered (snd r) \/ answered (snd r).
Proof.
  intros H. unfold parse_request. cbv zeta.
  split_tests.
  all: cbn [fst snd negb].
  all: try (left; setters_unanswered H).
  all: try (right; apply answered_send_error; setters_unanswered H).
  all: try setters_unanswered H.
Qed.

Lemma handle_one_request_answers (e : env) (raw : string) (hdrs : header_block)
    (h : request_handler) :
  unanswered h ->
  let h' := handle_one_request Handler_end_headers e raw hdrs h in
  unanswered h' \/ answered h'.
Proof.
  intros H. unfold handle_one_request.
  destruct (65536 <? Z.of_nat (String.length raw))%Z.
  { right. apply answered_send_error. setters_unanswered H. }
  destruct (String.eqb raw "").
  { left. setters_unanswered H. }
  pose proof (parse_request_answers e raw hdrs h H) as Hp. cbv zeta in Hp.
  destruct (parse_request Handler_end_headers e raw hdrs h) as [[|] s];
    cbn [fst snd] in Hp; [| exact Hp].
  destruct (command s) as [c |]; [| left; exact Hp].
  destruct (String.eqb c "GET"); [apply answered_do_GET; exact Hp |].
  destruct (String.eqb c "HEAD"); [apply answered_do_HEAD; exact Hp |].
  right. apply answered_send_error. exact Hp.
Qed.

(** C1, as the code has it: a response the server sends while the
    handler's [request_version] is not [HTTP/0.9] starts with one
    header section, which holds [Access-Control-Allow-Origin: *]
    exactly once, whatever the status and the path; a response to an
    HTTP/0.9 request is body bytes only, with no status line and no
    header. *)
Theorem cors_header_once (e : env) (raw_requestline : string) (hdrs : header_block) :
  let h := answer Handler e raw_requestline hdrs in
  if String.eqb (request_version h) "HTTP/0.9"
  then all_data (wfile h) = true
  else wfile h = [] \/ cors_once (wfile h) = true.
Proof.
  cbv zeta. unfold answer. cbn [end_headers_of].
  assert (H0 : unanswered new_handler) by (split; reflexivity).
  destruct (handle_one_request_answers e raw_requestline hdrs new_handler H0)
    as [[Hw _] | Ha].
  - rewrite Hw. destruct (String.eqb _ _); [reflexivity | left; reflexivity].
  - unfold answered in Ha. destruct (String.eqb _ _); [exact Ha | right; exact Ha].
Qed.

(** C1 fails as stated: the answer to the HTTP/0.9 request
    [GET /index.html] is the bytes of the file alone, so this response
    carries no [Access-Control-Allow-Origin] header. *)
Lemma cors_header_absent_on_http09 :
  let written := response Handler Demo.site ("GET /index.html" ++ CRLF) (Parsed []) in
  written = [Data "<h1>hi</h1>"] /\ written <> [] /\ cors_once written = false.
Proof.
  cbv zeta. split; [vm_compute; reflexivity |].
  split; [vm_compute; discriminate | vm_compute; reflexivity].
Qed.

Lemma parse_plain (eh : request_handler -> request_handler) (e : env)
    (raw : string) (hdrs : header_block) (c p v : string)
    (fields : list (string * string)) :
  plain_request e raw hdrs c p v fields ->
  parse_request eh e raw hdrs new_handler = (true, parsed_handler c p v fields).
Proof.
  intros [Hlen Hwords (base & number & Hver & Hbelow) Hnot Hhdrs].
  unfold parse_request. cbv zeta. rewrite Hwords, Hhdrs.
  cbn [List.length Nat.eqb Nat.leb List.last List.nth andb negb].
  rewrite Hver, Hbelow.
  rewrite protocol_below_1_1.
  replace (String.leb "HTTP/1.1" protocol_version) with false by reflexivity.
  rewrite !andb_false_r.
  destruct (String.eqb (PyStr.lower (headers_get_default fields "Connection")) "close");
    reflexivity.
Qed.

Lemma plain_request_dispatch (eh : request_handler -> request_handler) (e : env)
    (raw : string) (hdrs : header_block) (c p v : string)
    (fields : list (string * string)) :
  plain_request e raw hdrs c p v fields ->
  handle_one_request eh e raw hdrs new_handler
  = if String.eqb c "GET" then do_GET eh e (parsed_handler c p v fields)
    else if String.eqb c "HEAD" then do_HEAD eh e (parsed_handler c p v fields)
    else send_error eh e 501 (Some ("Unsupported method (" ++ repr e c ++ ")")) None
           (parsed_handler c p v fields).
Proof.
  intros Hplain. unfold handle_one_request.
  rewrite (parse_plain eh e raw hdrs c p v fields Hplain).
  destruct Hplain as [Hlen Hwords _ _ _].
  replace (65536 <? Z.of_nat (String.length raw))%Z with false
    by (symmetry; apply Z.ltb_ge; exact Hlen).
  destruct raw as [| a raw']; [discriminate Hwords |].
  reflexivity.
Qed.

Lemma hd_error_app_some {A : Type} (l1 l2 : list A) (a : A) :
  List.hd_error l1 = Some a -> List.hd_error (l1 ++ l2)%list = Some a.
Proof. destruct l1; [discriminate | auto]. Qed.

Lemma begun_send_header (k v : string) (h : request_handler) (line : string) :
  begun h line -> begun (send_header k v h) line.
Proof.
  intros (Hv & Hw & Hb).
  destruct (send_header_frame k v h) as (Hv' & _ & _ & _ & Hw' & Hb').
  repeat split; [congruence | congruence |].
  rewrite Hb', Hv. apply hd_error_app_some. exact Hb.
Qed.

Lemma begun_send_response (e : env) (code : Z) (m : option string)
    (h : request_handler) :
  String.eqb (request_version h) "HTTP/0.9" = false ->
  wfile h = [] -> _headers_buffer h = [] ->
  begun (send_response e code m h) (status_line code (reason_phrase code m)).
Proof.
  intros Hv Hw Hb. unfold send_response.
  do 2 apply begun_send_header.
  destruct (send_response_only_frame code m h) as (Hv' & _ & _ & _ & Hw' & Hb').
  repeat split; [congruence | congruence |].
  rewrite Hb', Hv, Hb. reflexivity.
Qed.

Lemma replied_end_headers (h : request_handler) (line : string) :
  begun h line ->
  replied (wfile (Handler_end_headers h)) line ""
  /\ request_version (Handler_end_headers h) = request_version h
  /\ command (Handler_end_headers h) = command h.
Proof.
  intros (Hv & Hw & Hb).
  destruct (Handler_end_headers_frame h) as (Hv' & Hc' & Hw').
  rewrite Hv, Hw in Hw'. cbn in Hw'.
  repeat split; [| | exact Hv' | exact Hc'].
  - rewrite Hw'. unfold response_status. cbn [head_of].
    destruct (_headers_buffer h); [discriminate | exact Hb].
  - rewrite Hw'. reflexivity.
Qed.

Lemma append_empty_r (s : string) : s ++ "" = s.
Proof. induction s; cbn; [| rewrite IHs]; reflexivity. Qed.

Lemma replied_write (h : request_handler) (line d : string) :
  replied (wfile h) line "" -> replied (wfile (wfile_write (Data d) h)) line d.
Proof.
  unfold replied, wfile_write, response_status. cbn [wfile].
  destruct (wfile h) as [| [lines | b] rest]; cbn [head_of List.app]; try (intros [? ?]; discriminate).
  intros [Hs Hb]. split; [exact Hs |].
  cbn [body_of] in *.
  revert Hb. induction rest as [| [l | b] rest IH]; cbn [body_of List.app]; intros Hb.
  - apply append_empty_r.
  - apply IH; exact Hb.
  - destruct b; [| discriminate]. cbn in *. apply IH; exact Hb.
Qed.








Lemma get_index_11_plain (fields : list (string * string)) :
  plain_request Demo.site get_index_11 (Parsed fields)
    "GET" "/index.html" "HTTP/1.1" fields.
Proof.
  constructor.
  - vm_compute; discriminate.
  - reflexivity.
  - exists "1.1", (1, 1)%Z. split; reflexivity.
  - discriminate.
  - reflexivity.
Defined.






(** ** One request per connection *)

Section Closes.

Variable eh : request_handler -> request_handler.
Hypothesis eh_closes : forall h, closes h -> closes (eh h).
Variable e : env.

Lemma closes_send_header (k v : string) (h : request_handler) :
  String.eqb (PyStr.lower k) "connection" = false ->
  closes h -> closes (send_header k v h).
Proof.
  intros Hk H. unfold closes, send_header. rewrite Hk.
  destruct (negb (String.eqb (request_version h) "HTTP/0.9")); exact H.
Qed.

Lemma closes_connection_close (h : request_handler) :
  closes (send_header "Connection" "close" h).
Proof.
  unfold closes, send_header.
  destruct (negb (String.eqb (request_version h) "HTTP/0.9")); reflexivity.
Qed.

Lemma closes_send_response_only (code : Z) (m : option string) (h : request_handler) :
  closes h -> closes (send_response_only code m h).
Proof.
  intros H. unfold closes, send_response_only.
  destruct (negb (String.eqb (request_version h) "HTTP/0.9")); exact H.
Qed.

Lemma closes_write (c : chunk) (h : request_handler) :
  closes h -> closes (wfile_write c h).
Proof. intros H; exact H. Qed.

Lemma closes_raise_uncaught (h : request_handler) :
  closes h -> closes (raise_uncaught h).
Proof. intros H; exact H. Qed.

Ltac still_closes :=
  repeat match goal with
         | |- closes (eh _) => apply eh_closes
         | |- closes (wfile_write _ _) => apply closes_write
         | |- closes (raise_uncaught _) => apply closes_raise_uncaught
         | |- closes (send_response _ _ _ _) => unfold send_response
         | |- closes (send_response_only _ _ _) => apply closes_send_response_only
         | |- closes (send_header "Connection" "close" _) =>
             apply closes_connection_close
         | |- closes (send_header _ _ _) =>
             apply closes_send_header; [reflexivity |]
         | |- closes _ => assumption
         end.

Lemma closes_send_error (code : Z) (m x : option string) (h : request_handler) :
  closes (send_error eh e code m x h).
Proof.
  unfold send_error.
  destruct (responses code) as [[shortmsg longmsg] |];
    destruct ((200 <=? code)%Z && negb ((code =? 204)%Z || (code =? 205)%Z || (code =? 304)%Z));
    try match goal with
        | |- closes (if ?c then _ else _) => destruct c
        end;
    still_closes.
Qed.

Lemma closes_send_file_head (p : string) (h : request_handler) :
  closes h -> closes (snd (send_file_head eh e p h)).
Proof.
  intros H. unfold send_file_head.
  destruct (PyStr.endswith p "/"); [apply closes_send_error |].
  destruct (open_rb e p) as [data st_mtime | |];
    [| apply closes_send_error | exact H].
  cbv zeta.
  match goal with
  | |- context [match ?c with Some _ => _ | None => _ end] => destruct c as [[|] |]
  end;
    [| destruct (fromtimestamp_ok e st_mtime) |];
    cbn [snd]; unfold send_response; still_closes.
Qed.

Lemma closes_send_head (h : request_handler) :
  closes h -> closes (snd (send_head eh e h)).
Proof.
  intros H. unfold send_head, list_directory.
  repeat match goal with
         | |- context [if ?c then _ else _] => destruct c
         | |- context [match listdir ?a ?b with _ => _ end] => destruct (listdir a b)
         end;
    cbn [snd];
    first [ apply closes_send_file_head; exact H
          | apply closes_send_error
          | unfold send_response; still_closes ].
Qed.

Lemma closes_parse_request (raw : string) (hdrs : header_block) (h : request_handler) :
  closes (snd (parse_request eh e raw hdrs h)).
Proof.
  unfold parse_request. cbv zeta.
  replace (String.leb "HTTP/1.1" protocol_version) with false by reflexivity.
  repeat match goal with
         | |- context [?b && false] => rewrite (andb_false_r b); cbn [andb]
         | |- context [if ?c then _ else _] => atomic_test c
         | |- context [match ?x with _ => _ end] => atomic_test x
         end.
  all: cbn [fst snd negb].
  all: first [apply closes_send_error | reflexivity].
Qed.

Lemma closes_handle_one_request (raw : string) (hdrs : header_block)
    (h : request_handler) :
  closes (handle_one_request eh e raw hdrs h).
Proof.
  unfold handle_one_request.
  destruct (65536 <? Z.of_nat (String.length raw))%Z; [apply closes_send_error |].
  destruct (String.eqb raw ""); [reflexivity |].
  pose proof (closes_parse_request raw hdrs h) as Hp.
  destruct (parse_request eh e raw hdrs h) as [[|] s]; cbn [snd] in Hp; [| exact Hp].
  destruct (command s) as [c |]; [| exact Hp].
  destruct (String.eqb c "GET").
  { unfold do_GET, copyfile.
    pose proof (closes_send_head s Hp) as Hh.
    destruct (send_head eh e s) as [[f |] s']; cbn [snd] in Hh; [| exact Hh].
    destruct (String.eqb f ""); [exact Hh | apply closes_write; exact Hh]. }
  destruct (String.eqb c "HEAD"); [apply closes_send_head; exact Hp |].
  apply closes_send_error.
Qed.

End Closes.

Lemma end_headers_of_closes (cls : RequestHandlerClass) (h : request_handler) :
  closes h -> closes (end_headers_of cls h).
Proof.
  intros H. destruct cls; cbn [end_headers_of];
    unfold Handler_end_headers, end_headers, flush_headers.
  - destruct (negb (String.eqb (request_version h) "HTTP/0.9")); exact H.
  - assert (Hc : closes (send_header "Access-Control-Allow-Origin" "*" h))
      by (apply closes_send_header; [reflexivity | exact H]).
    destruct (negb (String.eqb (request_version
               (send_header "Access-Control-Allow-Origin" "*" h)) "HTTP/0.9"));
      exact Hc.
Qed.

(** The protocol version of these classes is HTTP/1.0, so every
    request closes its connection: of all that a client sends on a
    connection, the first request is answered, and nothing else. *)
Lemma connection_is_one_answer (cls : RequestHandlerClass) (e : env)
    (raw : string) (hdrs : header_block) (rest : list (string * header_block)) :
  connection cls e ((raw, hdrs) :: rest) = answer cls e raw hdrs.
Proof.
  unfold connection, handle, answer. cbn [handle_requests].
  change (set_close_connection true new_handler) with new_handler.
  pose proof (closes_handle_one_request (end_headers_of cls) (end_headers_of_closes cls)
                e raw hdrs new_handler) as Hc.
  unfold closes in Hc. rewrite Hc. reflexivity.
Qed.

(** On every connection, whatever the client sends on it, what the
    server writes is the answer of [cors_header_once]. *)
Lemma cors_header_once_per_connection (e : env)
    (requests : list (string * header_block)) :
  let h := connection Handler e requests in
  if String.eqb (request_version h) "HTTP/0.9"
  then all_data (wfile h) = true
  else wfile h = [] \/ cors_once (wfile h) = true.
Proof.
  destruct requests as [| [raw hdrs] rest].
  - cbv zeta. cbn. left; reflexivity.
  - rewrite connection_is_one_answer.
    cbv zeta. unfold answer. cbn [end_headers_of].
    assert (H0 : unanswered new_handler) by (split; reflexivity).
    destruct (handle_one_request_answers e raw hdrs new_handler H0) as [[Hw _] | Ha].
    + rewrite Hw. destruct (String.eqb _ _); [reflexivity | left; reflexivity].
    + unfold answered in Ha. destruct (String.eqb _ _); [exact Ha | right; exact Ha].
Qed.

(** ** The server on the demo site *)

(** The scenario of the specification: [index.html] holds
    [<h1>hi</h1>]; a GET of [/index.html] is answered 200, with that
    body and with the header of serve.py, once. *)
Example get_index_end_to_end :
  let written := response Handler Demo.site get_index_11 (Parsed []) in
  has_status written 200 = true
  /\ body_of written = "<h1>hi</h1>"
  /\ cors_once written = true.
Proof. cbv zeta. repeat split; vm_compute; reflexivity. Qed.

(** The class of the library, without the override, sends no such
    header. *)
Example library_class_has_no_cors_header :
  let written := response SimpleHTTPRequestHandler Demo.site get_index_11 (Parsed []) in
  has_status written 200 = true /\ cors_once written = false.
Proof. cbv zeta. split; vm_compute; reflexivity. Qed.

(** An error response carries the header as well. *)
Example missing_has_cors_header :
  cors_once (response Handler Demo.site get_missing_11 (Parsed [])) = true.
Proof. vm_compute; reflexivity. Qed.

(** A file that exists and may not be read is answered 404. *)
Example unreadable_file_is_404 :
  let written := response Handler Demo.site ("GET /secret HTTP/1.1" ++ CRLF) (Parsed []) in
  fs Demo.site (translate_path Demo.site "/secret") = Some (File "x" 1700000000%Z false)
  /\ has_status written 404 = true.
Proof. cbv zeta. split; vm_compute; reflexivity. Qed.

(** An HTTP/0.9 request for a file is answered with its bytes alone:
    the 200 is on no status line. *)
Example http09_file_has_no_status_line :
  let written := response Handler Demo.site ("GET /index.html" ++ CRLF) (Parsed []) in
  response_status written = None
  /\ has_status written 200 = false
  /\ body_of written = "<h1>hi</h1>".
Proof. cbv zeta. repeat split; vm_compute; reflexivity. Qed.

(** An HTTP/0.9 request for a missing path is answered with the error
    page alone: the 404 is on no status line. *)
Example http09_missing_has_no_status_line :
  let written := response Handler Demo.site ("GET /missing" ++ CRLF) (Parsed []) in
  response_status written = None /\ has_status written 404 = false /\ written <> [].
Proof. cbv zeta. repeat split; vm_compute; try reflexivity; discriminate. Qed.

(** A request line that does not parse is answered before any version
    is accepted, so without a header section. *)
Example bad_request_line_has_no_headers :
  let written := response Handler Demo.site ("garbage" ++ CRLF) (Parsed []) in
  all_data written = true /\ written <> [].
Proof. cbv zeta. split; vm_compute; [reflexivity | discriminate]. Qed.

(** A directory asked for without the final slash is answered 301. *)
Example directory_is_redirected :
  has_status (response Handler Demo.site ("GET /empty HTTP/1.1" ++ CRLF) (Parsed [])) 301
  = true.
Proof. vm_compute; reflexivity. Qed.

(** * More on the script *)

(** ** [main]: how a run ends *)

(** [main] with its lines and its URL by name. *)
Lemma main_by_name :
  main
  = (httpd <- HTTPServer ("", 8000%Z) Handler ;;
     print announce_line ;;
     print stop_hint_line ;;
     webbrowser_open url ;;
     try_except_KeyboardInterrupt
       (serve_forever httpd)
       (print stopped_line ;; server_close httpd)).
Proof. reflexivity. Qed.

Ltac keep_names := cbn -[announce_line stop_hint_line url stopped_line startup_events].

Ltac start_run :=
  unfold serve_py, interpreter; rewrite main_by_name;
  unfold try_except_KeyboardInterrupt, HTTPServer, print, webbrowser_open,
    serve_forever, server_close, call;
  keep_names.

Ltac given H := rewrite H; keep_names.

(** A goal on a run that has come to its end is closed with [fin]. *)
Ltac settle fin :=
  lazymatch goal with
  | |- context [match ?x with Returns _ => _ | _ => _ end] => idtac
  | |- _ => solve [fin]
  end.

Ltac path_step t fin :=
  lazymatch goal with
  | |- context [t] =>
      destruct t as [? | [| ? | ? | ?] |] eqn:?; keep_names; unit_values; settle fin
  | |- _ => idtac
  end.

(** Case analysis on the outcomes of the calls along the paths of
    [main]: a call is looked at only on the paths that reach it. *)
Ltac by_path w fin :=
  start_run;
  path_step (w_HTTPServer w ("", 8000%Z)) fin;
  path_step (w_print w announce_line) fin;
  path_step (w_print w stop_hint_line) fin;
  path_step (w_webbrowser_open w url) fin;
  path_step (w_serve_forever w) fin;
  path_step (w_print w stopped_line) fin;
  path_step (w_server_close w) fin.



(** [server_close] is called in one case only: after a start-up that
    went through, the serving loop was left by [KeyboardInterrupt] and
    the notice was printed. *)
Theorem server_close_iff (argv : list string) (environ : list (string * string))
    (w : world) :
  In Ev_server_close (events (serve_py argv environ w))
  <-> startup_ok w
      /\ w_serve_forever w = Raises KeyboardInterrupt
      /\ w_print w stopped_line = Returns tt.
Proof.
  unfold startup_ok. split.
  - by_path w
      ltac:(intros H; cbn in H;
            first [ exfalso; intuition discriminate | repeat split; eauto ]).
  - intros ((Hb & Hp1 & Hp2 & launched & Ho) & Hs & Hp3).
    start_run. given Hb. given Hp1. given Hp2. given Ho. given Hs. given Hp3.
    cbn. intuition.
Qed.

(** The listener socket is closed when the process ends in one case
    only: the interrupt path on which the notice and [server_close]
    both returned. *)
Theorem socket_closed_iff (argv : list string) (environ : list (string * string))
    (w : world) :
  final_socket (serve_py argv environ w) = Closed
  <-> startup_ok w
      /\ w_serve_forever w = Raises KeyboardInterrupt
      /\ w_print w stopped_line = Returns tt
      /\ w_server_close w = Returns tt.
Proof.
  unfold startup_ok. split.
  - by_path w ltac:(intros H; first [ discriminate H | repeat split; eauto ]).
  - intros ((Hb & Hp1 & Hp2 & launched & Ho) & Hs & Hp3 & Hc).
    start_run. given Hb. given Hp1. given Hp2. given Ho. given Hs. given Hp3.
    given Hc. reflexivity.
Qed.



(** When [serve_forever] returns, [main] ends at once: the process
    exits without the notice and without [server_close], so with the
    socket still listening; the exit status is 0, or 120 when the
    flush of standard output fails at the end. *)
Theorem serving_loop_returns (argv : list string)
    (environ : list (string * string)) (w : world) :
  startup_ok w ->
  w_serve_forever w = Returns tt ->
  serve_py argv environ w
  = {| events := (startup_events ++ [Ev_serve_forever])%list;
       final_socket := Listening ("", 8000%Z);
       finished := Exited (if w_exit_flush w then 0 else 120) None |}.
Proof.
  intros (Hb & Hp1 & Hp2 & launched & Ho) Hs.
  start_run. given Hb. given Hp1. given Hp2. given Ho. given Hs.
  destruct (w_exit_flush w); reflexivity.
Qed.

Lemma serving_loop_returns_witness :
  serve_py [] [] (fair_weather true (Returns tt))
  = {| events := (startup_events ++ [Ev_serve_forever])%list;
       final_socket := Listening ("", 8000%Z);
       finished := Exited 0 None |}.
Proof.
  refine (serving_loop_returns [] [] (fair_weather true (Returns tt)) _ _).
  - unfold startup_ok; cbn; repeat split; eauto.
  - reflexivity.
Defined.





(** ** [Handler.end_headers]: what the override changes *)

Lemma with_cors_blank (buffer : list string) (final : string) :
  with_cors (buffer ++ [final])%list = (buffer ++ [cors_line; final])%list.
Proof.
  induction buffer as [| line rest IH]; [reflexivity |].
  cbn [List.app with_cors]. rewrite IH.
  destruct (rest ++ [final])%list eqn:Hrest; [| reflexivity].
  destruct rest; discriminate Hrest.
Qed.

Lemma cors_send_header (k v : string) (h : request_handler) :
  send_header k v (with_cors_written h) = with_cors_written (send_header k v h).
Proof.
  unfold send_header, with_cors_written; cbn.
  destruct (negb (String.eqb (request_version h) "HTTP/0.9"));
    destruct (String.eqb (PyStr.lower k) "connection");
    destruct (String.eqb (PyStr.lower v) "close");
    destruct (String.eqb (PyStr.lower v) "keep-alive"); reflexivity.
Qed.

Lemma cors_send_response_only (code : Z) (m : option string) (h : request_handler) :
  send_response_only code m (with_cors_written h)
  = with_cors_written (send_response_only code m h).
Proof.
  unfold send_response_only, with_cors_written; cbn.
  destruct (negb (String.eqb (request_version h) "HTTP/0.9")); reflexivity.
Qed.

Lemma cors_send_response (e : env) (code : Z) (m : option string)
    (h : request_handler) :
  send_response e code m (with_cors_written h)
  = with_cors_written (send_response e code m h).
Proof.
  unfold send_response.
  rewrite cors_send_response_only, !cors_send_header. reflexivity.
Qed.

Lemma cors_write_data (b : string) (h : request_handler) :
  wfile_write (Data b) (with_cors_written h)
  = with_cors_written (wfile_write (Data b) h).
Proof.
  unfold wfile_write, with_cors_written; cbn. rewrite List.map_app. reflexivity.
Qed.

(** The override against the method it overrides. *)
Lemma cors_end_headers (h : request_handler) :
  Handler_end_headers (with_cors_written h) = with_cors_written (end_headers h).
Proof.
  unfold Handler_end_headers. rewrite cors_send_header.
  destruct (String.eqb (request_version h) "HTTP/0.9") eqn:H09.
  - assert (Hsh : send_header "Access-Control-Allow-Origin" "*" h = h).
    { unfold send_header. rewrite H09. destruct h; reflexivity. }
    rewrite Hsh. unfold end_headers. cbn [request_version with_cors_written].
    rewrite H09. reflexivity.
  - assert (Hsh : send_header "Access-Control-Allow-Origin" "*" h
                  = set_headers_buffer (_headers_buffer h ++ [cors_line])%list h).
    { unfold send_header. rewrite H09. reflexivity. }
    rewrite Hsh. unfold end_headers. cbn [request_version with_cors_written set_headers_buffer].
    rewrite H09.
    unfold flush_headers, wfile_write, set_headers_buffer, with_cors_written; cbn.
    rewrite List.map_app. cbn [List.map add_cors].
    rewrite with_cors_blank, <- List.app_assoc. reflexivity.
Qed.

Lemma cors_raise_uncaught (h : request_handler) :
  raise_uncaught (with_cors_written h) = with_cors_written (raise_uncaught h).
Proof. reflexivity. Qed.

Lemma cors_set_command (c : option string) (h : request_handler) :
  set_command c (with_cors_written h) = with_cors_written (set_command c h).
Proof. reflexivity. Qed.

Lemma cors_set_path (p : string) (h : request_handler) :
  set_path p (with_cors_written h) = with_cors_written (set_path p h).
Proof. reflexivity. Qed.

Lemma cors_set_request_version (v : string) (h : request_handler) :
  set_request_version v (with_cors_written h)
  = with_cors_written (set_request_version v h).
Proof. reflexivity. Qed.

Lemma cors_set_headers (fields : list (string * string)) (h : request_handler) :
  set_headers fields (with_cors_written h) = with_cors_written (set_headers fields h).
Proof. reflexivity. Qed.

Lemma cors_set_close_connection (b : bool) (h : request_handler) :
  set_close_connection b (with_cors_written h)
  = with_cors_written (set_close_connection b h).
Proof. reflexivity. Qed.

(** The line of serve.py is moved out of the calls, to the result. *)
Ltac push_cors :=
  repeat (progress
    (rewrite ?cors_set_command, ?cors_set_path, ?cors_set_request_version,
       ?cors_set_headers, ?cors_set_close_connection, ?cors_raise_uncaught,
       ?cors_send_header,
       ?cors_send_response_only, ?cors_send_response, ?cors_write_data,
       ?cors_end_headers;
     change (command (with_cors_written ?h)) with (command h);
     change (path (with_cors_written ?h)) with (path h);
     change (request_version (with_cors_written ?h)) with (request_version h);
     change (headers (with_cors_written ?h)) with (headers h))).

Lemma cors_send_error (e : env) (code : Z) (m x : option string)
    (h : request_handler) :
  send_error Handler_end_headers e code m x (with_cors_written h)
  = with_cors_written (send_error end_headers e code m x h).
Proof.
  unfold send_error.
  destruct (responses code) as [[shortmsg longmsg] |]; cbv zeta;
    destruct ((200 <=? code)%Z && negb ((code =? 204)%Z || (code =? 205)%Z || (code =? 304)%Z));
    push_cors;
    try match goal with
        | |- (if ?c then _ else _) = _ => destruct c
        end;
    push_cors; reflexivity.
Qed.

Lemma cors_parse_request (e : env) (raw : string) (hdrs : header_block)
    (h : request_handler) :
  parse_request Handler_end_headers e raw hdrs (with_cors_written h)
  = (fst (parse_request end_headers e raw hdrs h),
     with_cors_written (snd (parse_request end_headers e raw hdrs h))).
Proof.
  unfold parse_request. cbv zeta.
  replace (String.leb "HTTP/1.1" protocol_version) with false by reflexivity.
  repeat first
    [ match goal with
      | |- context [?b && false] => rewrite (andb_false_r b); cbn [andb]
      end
    | progress (push_cors; rewrite ?cors_send_error)
    | match goal with
      | |- context [if ?c then _ else _] => atomic_test c
      | |- context [match ?x with _ => _ end] => atomic_test x
      end ].
  all: reflexivity.
Qed.

Ltac push_all := push_cors; rewrite ?cors_send_error; push_cors.

Lemma cors_list_directory (e : env) (p : string) (h : request_handler) :
  list_directory Handler_end_headers e p (with_cors_written h)
  = (fst (list_directory end_headers e p h),
     with_cors_written (snd (list_directory end_headers e p h))).
Proof.
  unfold list_directory. destruct (listdir e p); cbv zeta; push_all; reflexivity.
Qed.

Lemma cors_send_file_head (e : env) (p : string) (h : request_handler) :
  send_file_head Handler_end_headers e p (with_cors_written h)
  = (fst (send_file_head end_headers e p h),
     with_cors_written (snd (send_file_head end_headers e p h))).
Proof.
  unfold send_file_head. cbv zeta.
  destruct (PyStr.endswith p "/"); [push_all; reflexivity |].
  destruct (open_rb e p) as [data st_mtime | |]; [| push_all; reflexivity ..].
  push_all.
  match goal with
  | |- match ?c with Some _ => _ | None => _ end = _ => destruct c as [[|] |]
  end; [| destruct (fromtimestamp_ok e st_mtime) |]; reflexivity.
Qed.

Lemma cors_send_head (e : env) (h : request_handler) :
  send_head Handler_end_headers e (with_cors_written h)
  = (fst (send_head end_headers e h),
     with_cors_written (snd (send_head end_headers e h))).
Proof.
  unfold send_head. cbv zeta. push_all.
  rewrite !cors_send_file_head, cors_list_directory.
  repeat match goal with
         | |- context [if ?c then _ else _] => atomic_test c
         end; reflexivity.
Qed.

Lemma cors_do_GET (e : env) (h : request_handler) :
  do_GET Handler_end_headers e (with_cors_written h)
  = with_cors_written (do_GET end_headers e h).
Proof.
  unfold do_GET, copyfile. rewrite cors_send_head.
  destruct (send_head end_headers e h) as [[f |] h']; cbn [fst snd]; [| reflexivity].
  destruct (String.eqb f ""); [reflexivity | apply cors_write_data].
Qed.

Lemma cors_do_HEAD (e : env) (h : request_handler) :
  do_HEAD Handler_end_headers e (with_cors_written h)
  = with_cors_written (do_HEAD end_headers e h).
Proof. unfold do_HEAD. rewrite cors_send_head. reflexivity. Qed.

Lemma cors_handle_one_request (e : env) (raw : string) (hdrs : header_block)
    (h : request_handler) :
  handle_one_request Handler_end_headers e raw hdrs (with_cors_written h)
  = with_cors_written (handle_one_request end_headers e raw hdrs h).
Proof.
  unfold handle_one_request.
  destruct (65536 <? Z.of_nat (String.length raw))%Z; [push_all; reflexivity |].
  destruct (String.eqb raw ""); [reflexivity |].
  rewrite cors_parse_request.
  destruct (parse_request end_headers e raw hdrs h) as [[|] s]; cbn [fst snd];
    [| reflexivity].
  change (command (with_cors_written s)) with (command s).
  destruct (command s) as [c |]; [| reflexivity].
  destruct (String.eqb c "GET"); [apply cors_do_GET |].
  destruct (String.eqb c "HEAD"); [apply cors_do_HEAD |].
  apply cors_send_error.
Qed.

(** What [Handler] answers to a request is what the class of the
    library answers, with the line [Access-Control-Allow-Origin: *] put
    before the blank line of each header section: the override changes
    no other line, no other write, and no attribute of the handler. *)
Theorem override_only_adds_the_header (e : env) (raw_requestline : string)
    (hdrs : header_block) :
  answer Handler e raw_requestline hdrs
  = with_cors_written (answer SimpleHTTPRequestHandler e raw_requestline hdrs).
Proof.
  unfold answer. cbn [end_headers_of].
  change new_handler with (with_cors_written new_handler) at 1.
  apply cors_handle_one_request.
Qed.

Lemma body_of_add_cors (written : list chunk) :
  body_of (List.map add_cors written) = body_of written.
Proof.
  induction written as [| [lines | b] rest IH]; cbn; [| | rewrite IH]; auto.
Qed.

(** The override changes the body of no response: [Handler] sends the
    bytes the class of the library sends. *)
Theorem override_keeps_the_body (e : env) (raw_requestline : string)
    (hdrs : header_block) :
  body_of (response Handler e raw_requestline hdrs)
  = body_of (response SimpleHTTPRequestHandler e raw_requestline hdrs).
Proof.
  unfold response, answer. cbn [end_headers_of].
  change new_handler with (with_cors_written new_handler) at 1.
  rewrite cors_handle_one_request.
  apply body_of_add_cors.
Qed.

(** ** The header sections of a response *)

Section Sections.

Variable eh : request_handler -> request_handler.
Variable P : list string -> Prop.
Hypothesis eh_sections : forall h, sections_are P h -> sections_are P (eh h).
Variable e : env.

Lemma sections_same_wfile (h h' : request_handler) :
  wfile h' = wfile h -> sections_are P h -> sections_are P h'.
Proof. unfold sections_are. intros Hw H lines. rewrite Hw. apply H. Qed.

Lemma sections_send_header (k v : string) (h : request_handler) :
  sections_are P h -> sections_are P (send_header k v h).
Proof.
  apply sections_same_wfile.
  destruct (send_header_frame k v h) as (_ & _ & _ & _ & Hw & _). exact Hw.
Qed.

Lemma sections_send_response_only (code : Z) (m : option string)
    (h : request_handler) :
  sections_are P h -> sections_are P (send_response_only code m h).
Proof.
  apply sections_same_wfile.
  destruct (send_response_only_frame code m h) as (_ & _ & _ & _ & Hw & _). exact Hw.
Qed.

Lemma sections_write_data (b : string) (h : request_handler) :
  sections_are P h -> sections_are P (wfile_write (Data b) h).
Proof.
  unfold sections_are, wfile_write; cbn. intros H lines Hin.
  apply List.in_app_or in Hin. destruct Hin as [Hin | [Hin | []]];
    [apply H; exact Hin | discriminate Hin].
Qed.

Lemma sections_raise_uncaught (h : request_handler) :
  sections_are P h -> sections_are P (raise_uncaught h).
Proof. intros H; exact H. Qed.

Ltac still_sections :=
  repeat match goal with
         | |- sections_are P (eh _) => apply eh_sections
         | |- sections_are P (raise_uncaught _) => apply sections_raise_uncaught
         | |- sections_are P (wfile_write (Data _) _) => apply sections_write_data
         | |- sections_are P (send_response _ _ _ _) => unfold send_response
         | |- sections_are P (send_response_only _ _ _) =>
             apply sections_send_response_only
         | |- sections_are P (send_header _ _ _) => apply sections_send_header
         | |- sections_are P _ => assumption
         end.

Lemma sections_send_error (code : Z) (m x : option string) (h : request_handler) :
  sections_are P h -> sections_are P (send_error eh e code m x h).
Proof.
  intros H. unfold send_error.
  destruct (responses code) as [[shortmsg longmsg] |];
    destruct ((200 <=? code)%Z && negb ((code =? 204)%Z || (code =? 205)%Z || (code =? 304)%Z));
    try match goal with
        | |- sections_are P (if ?c then _ else _) => destruct c
        end;
    still_sections.
Qed.

Lemma sections_send_file_head (p : string) (h : request_handler) :
  sections_are P h -> sections_are P (snd (send_file_head eh e p h)).
Proof.
  intros H. unfold send_file_head.
  destruct (PyStr.endswith p "/"); [apply sections_send_error; exact H |].
  destruct (open_rb e p) as [data st_mtime | |];
    [| apply sections_send_error; exact H | exact H].
  cbv zeta.
  match goal with
  | |- context [match ?c with Some _ => _ | None => _ end] => destruct c as [[|] |]
  end;
    [| destruct (fromtimestamp_ok e st_mtime) |];
    cbn [snd]; still_sections.
Qed.

Lemma sections_send_head (h : request_handler) :
  sections_are P h -> sections_are P (snd (send_head eh e h)).
Proof.
  intros H. unfold send_head, list_directory.
  repeat match goal with
         | |- context [if ?c then _ else _] => destruct c
         | |- context [match listdir ?a ?b with _ => _ end] => destruct (listdir a b)
         end;
    cbn [snd];
    first [ apply sections_send_file_head; exact H
          | apply sections_send_error; exact H
          | still_sections ].
Qed.

Lemma sections_parse_request (raw : string) (hdrs : header_block)
    (h : request_handler) :
  sections_are P h -> sections_are P (snd (parse_request eh e raw hdrs h)).
Proof.
  intros H. unfold parse_request. cbv zeta.
  replace (String.leb "HTTP/1.1" protocol_version) with false by reflexivity.
  repeat match goal with
         | |- context [?b && false] => rewrite (andb_false_r b); cbn [andb]
         | |- context [if ?c then _ else _] => atomic_test c
         | |- context [match ?x with _ => _ end] => atomic_test x
         end.
  all: cbn [fst snd negb].
  all: first [apply sections_send_error; exact H | exact H].
Qed.

Lemma sections_handle_one_request (raw : string) (hdrs : header_block)
    (h : request_handler) :
  sections_are P h -> sections_are P (handle_one_request eh e raw hdrs h).
Proof.
  intros H. unfold handle_one_request.
  destruct (65536 <? Z.of_nat (String.length raw))%Z;
    [apply sections_send_error; exact H |].
  destruct (String.eqb raw ""); [exact H |].
  pose proof (sections_parse_request raw hdrs h H) as Hp.
  destruct (parse_request eh e raw hdrs h) as [[|] s]; cbn [snd] in Hp; [| exact Hp].
  destruct (command s) as [c |]; [| exact Hp].
  destruct (String.eqb c "GET").
  { unfold do_GET, copyfile.
    pose proof (sections_send_head s Hp) as Hh.
    destruct (send_head eh e s) as [[f |] s']; cbn [snd] in Hh; [| exact Hh].
    destruct (String.eqb f ""); [exact Hh | apply sections_write_data; exact Hh]. }
  destruct (String.eqb c "HEAD"); [apply sections_send_head; exact Hp |].
  apply sections_send_error; exact Hp.
Qed.

End Sections.

Lemma Handler_end_headers_sections (h : request_handler) :
  sections_are cors_is_last h -> sections_are cors_is_last (Handler_end_headers h).
Proof.
  intros H lines Hin.
  destruct (Handler_end_headers_frame h) as (_ & _ & Hw). rewrite Hw in Hin.
  destruct (String.eqb (request_version h) "HTTP/0.9"); [apply H; exact Hin |].
  apply List.in_app_or in Hin. destruct Hin as [Hin | [Hin | []]]; [apply H; exact Hin |].
  injection Hin as <-. exists (_headers_buffer h). reflexivity.
Qed.

Lemma end_headers_sections (h : request_handler) :
  sections_are blank_is_last h -> sections_are blank_is_last (end_headers h).
Proof.
  intros H lines Hin. unfold end_headers, flush_headers in Hin.
  destruct (negb (String.eqb (request_version h) "HTTP/0.9")); [| apply H; exact Hin].
  cbn in Hin. apply List.in_app_or in Hin.
  destruct Hin as [Hin | [Hin | []]]; [apply H; exact Hin |].
  injection Hin as <-. exists (_headers_buffer h). reflexivity.
Qed.

Lemma no_sections_yet (P : list string -> Prop) : sections_are P new_handler.
Proof. intros lines []. Qed.

(** In every header section [Handler] sends, the line
    [Access-Control-Allow-Origin: *] is the last header: it comes right
    before the blank line that ends the section. *)
Theorem cors_header_is_last (e : env) (raw_requestline : string)
    (hdrs : header_block) (lines : list string) :
  In (Headers lines) (response Handler e raw_requestline hdrs) ->
  exists before, lines = (before ++ [cors_line; CRLF])%list.
Proof.
  unfold response, answer. cbn [end_headers_of].
  apply (sections_handle_one_request Handler_end_headers cors_is_last
           Handler_end_headers_sections e raw_requestline hdrs new_handler
           (no_sections_yet cors_is_last)).
Qed.

Lemma has_status_add_cors (written : list chunk) (code : Z) :
  (forall lines, In (Headers lines) written -> blank_is_last lines) ->
  has_status (List.map add_cors written) code = has_status written code.
Proof.
  intros Hblank. destruct written as [| [lines | b] rest]; try reflexivity.
  destruct (Hblank lines (or_introl eq_refl)) as [before ->].
  unfold has_status, response_status. cbn [List.map add_cors head_of].
  rewrite with_cors_blank.
  destruct before as [| first before']; reflexivity.
Qed.

(** The override changes the status line of no response: for every
    request and every code, [Handler] answers with that status exactly
    when the class of the library does. *)
Theorem override_keeps_the_status (e : env) (raw_requestline : string)
    (hdrs : header_block) (code : Z) :
  has_status (response Handler e raw_requestline hdrs) code
  = has_status (response SimpleHTTPRequestHandler e raw_requestline hdrs) code.
Proof.
  unfold response, answer. cbn [end_headers_of].
  change new_handler with (with_cors_written new_handler) at 1.
  rewrite cors_handle_one_request.
  apply has_status_add_cors.
  apply (sections_handle_one_request end_headers blank_is_last
           end_headers_sections e raw_requestline hdrs new_handler
           (no_sections_yet blank_is_last)).
Qed.

(** ** What [Handler] inherits: the answers, with the header *)


Lemma plain_version (e : env) (raw : string) (hdrs : header_block)
    (c p v : string) (fields : list (string * string)) :
  plain_request e raw hdrs c p v fields -> String.eqb v "HTTP/0.9" = false.
Proof. intros H. apply String.eqb_neq. exact (version_not_09 _ _ _ _ _ _ _ H). Qed.

(** [send_head] on a file, after a plain request. *)
Lemma send_file_head_cases (e : env) (fp c p v : string)
    (fields : list (string * string)) :
  String.eqb v "HTTP/0.9" = false ->
  let r := send_file_head Handler_end_headers e fp (parsed_handler c p v fields) in
  match (if PyStr.endswith fp "/" then Open_OSError else open_rb e fp) with
  | Open_OSError =>
      fst r = None
      /\ exists body, replied (wfile (snd r)) (status_line 404 "File not found") body
                    /\ (c = "HEAD" -> body = "")
  | Open_ValueError => fst r = None /\ wfile (snd r) = [] /\ raised (snd r) = true
  | Opened data st_mtime =>
      if fromtimestamp_ok e st_mtime then
        if not_modified e fields st_mtime
        then fst r = None /\ replied (wfile (snd r)) (status_line 304 "Not Modified") ""
        else fst r = Some data /\ replied (wfile (snd r)) (status_line 200 "OK") ""
      else fst r = None /\ wfile (snd r) = [] /\ raised (snd r) = true
  end.
Proof.
  intros Hv. cbv zeta. unfold send_file_head.
  assert (H404 :
    exists body,
      replied (wfile (send_error Handler_end_headers e 404 (Some "File not found") None
                        (parsed_handler c p v fields)))
        (status_line 404 "File not found") body
      /\ (c = "HEAD" -> body = "")).
  { unfold send_error. cbn [responses]. cbv zeta.
    replace ((200 <=? 404)%Z && negb ((404 =? 204)%Z || (404 =? 205)%Z || (404 =? 304)%Z))
      with true by reflexivity.
    pose proof (begun_send_response e 404 (Some "File not found")
                  (parsed_handler c p v fields) Hv eq_refl eq_refl) as Hb.
    cbn [reason_phrase] in Hb.
    apply (begun_send_header "Connection" "close") in Hb.
    apply (begun_send_header "Content-Type" error_content_type) in Hb.
    match goal with
    | |- context [send_header "Content-Length" ?n] =>
        apply (begun_send_header "Content-Length" n) in Hb
    end.
    apply replied_end_headers in Hb. destruct Hb as (Hr & _ & Hc).
    rewrite Hc.
    assert (Hcmd : forall k v0 h, command (send_header k v0 h) = command h).
    { intros k v0 h. exact (proj1 (proj2 (send_header_frame k v0 h))). }
    unfold send_response. rewrite !Hcmd.
    rewrite (proj1 (proj2 (send_response_only_frame 404 (Some "File not found")
                            (parsed_handler c p v fields)))).
    cbn [command parsed_handler].
    destruct (String.eqb c "HEAD") eqn:Hhead; cbn [negb andb].
    - eexists; split; [exact Hr | reflexivity].
    - destruct (negb (String.eqb (error_message e 404 "File not found"
                                    "Nothing matches the given URI") "")).
      + eexists; split; [apply replied_write; exact Hr |].
        intros ->. discriminate Hhead.
      + eexists; split; [exact Hr | reflexivity]. }
  destruct (PyStr.endswith fp "/"); [split; [reflexivity | exact H404] |].
  destruct (open_rb e fp) as [data st_mtime | |];
    [| split; [reflexivity | exact H404] | repeat split].
  cbv zeta. cbn [headers parsed_handler].
  fold (parsed_handler c p v fields).
  pose proof (begun_send_response e 200 None (parsed_handler c p v fields)
                Hv eq_refl eq_refl) as Hb.
  cbn [reason_phrase responses] in Hb.
  apply (begun_send_header "Content-type" (guess_type e fp)) in Hb.
  apply (begun_send_header "Content-Length"
           (str (Z.of_nat (String.length data)))) in Hb.
  destruct (fromtimestamp_ok e st_mtime) eqn:Hok.
  - match goal with
    | |- context [match ?t with Some _ => _ | None => _ end] =>
        replace t with (Some (not_modified e fields st_mtime))
          by (unfold not_modified;
              destruct (headers_contains fields "If-Modified-Since"
                        && negb (headers_contains fields "If-None-Match"));
              [destruct (parsedate e _) |]; reflexivity)
    end.
    destruct (not_modified e fields st_mtime); cbn [fst snd]; (split; [reflexivity |]).
    + pose proof (begun_send_response e 304 None (parsed_handler c p v fields)
                    Hv eq_refl eq_refl) as Hb'.
      cbn [reason_phrase responses] in Hb'.
      apply replied_end_headers in Hb'. exact (proj1 Hb').
    + apply (begun_send_header "Last-Modified" (date_time_string e (Some st_mtime))) in Hb.
      apply replied_end_headers in Hb. exact (proj1 Hb).
  - destruct Hb as (_ & Hw & _).
    destruct (headers_contains fields "If-Modified-Since"
              && negb (headers_contains fields "If-None-Match"));
      [destruct (parsedate e _) |]; cbn [fst snd];
      repeat split; exact Hw.
Qed.

Lemma replied_status (written : list chunk) (line body : string) (code : Z) :
  replied written line body ->
  has_status written code
  = PyStr.startswith line (protocol_version ++ " " ++ str code ++ " ").
Proof. intros [Hs _]. unfold has_status. rewrite Hs. reflexivity. Qed.

(** The answer to a plain GET or HEAD of a path that is no directory,
    read off [send_file_head]. *)
Lemma file_response (e : env) (raw : string) (hdrs : header_block)
    (c p v : string) (fields : list (string * string)) :
  plain_request e raw hdrs c p v fields ->
  c = "GET" \/ c = "HEAD" ->
  isdir e (translate_path e (single_slash p)) = false ->
  let r := send_file_head Handler_end_headers e (translate_path e (single_slash p))
             (parsed_handler c p v fields) in
  response Handler e raw hdrs
  = if String.eqb c "GET"
    then match fst r with
         | Some f => wfile (copyfile f (snd r))
         | None => wfile (snd r)
         end
    else wfile (snd r).
Proof.
  intros Hplain Hc Hdir. cbv zeta.
  unfold response, answer. cbn [end_headers_of].
  rewrite (plain_request_dispatch _ e raw hdrs c p v fields Hplain).
  unfold do_GET, do_HEAD, send_head. cbn [path parsed_handler]. rewrite Hdir.
  fold (parsed_handler c p v fields).
  destruct Hc as [-> | ->]; cbn [String.eqb Ascii.eqb Bool.eqb].
  - destruct (send_file_head Handler_end_headers e _ _) as [[f |] s]; reflexivity.
  - reflexivity.
Qed.

Lemma replied_copyfile (h : request_handler) (line data : string) :
  replied (wfile h) line "" -> replied (wfile (copyfile data h)) line data.
Proof.
  intros Hr. unfold copyfile. destruct (String.eqb data "") eqn:Hd.
  - apply String.eqb_eq in Hd. subst data. exact Hr.
  - apply replied_write. exact Hr.
Qed.








(** HEAD is GET without the body: for a path that is no directory, a
    plain HEAD request is answered with the status of the GET request
    for the same path, version and headers, and with no body. *)
Theorem head_is_get_without_body (e : env) (raw_get raw_head : string)
    (hdrs : header_block) (p v : string) (fields : list (string * string))
    (code : Z) :
  plain_request e raw_get hdrs "GET" p v fields ->
  plain_request e raw_head hdrs "HEAD" p v fields ->
  isdir e (translate_path e (single_slash p)) = false ->
  has_status (response Handler e raw_head hdrs) code
  = has_status (response Handler e raw_get hdrs) code
  /\ body_of (response Handler e raw_head hdrs) = "".
Proof.
  intros Hget Hhead Hdir.
  pose proof (plain_version _ _ _ _ _ _ _ Hget) as Hv.
  rewrite (file_response e raw_get hdrs "GET" p v fields Hget (or_introl eq_refl) Hdir).
  rewrite (file_response e raw_head hdrs "HEAD" p v fields Hhead (or_intror eq_refl) Hdir).
  cbn [String.eqb Ascii.eqb Bool.eqb].
  pose proof (send_file_head_cases e (translate_path e (single_slash p))
                "GET" p v fields Hv) as Hg.
  pose proof (send_file_head_cases e (translate_path e (single_slash p))
                "HEAD" p v fields Hv) as Hh.
  cbv zeta in Hg, Hh.
  destruct (if PyStr.endswith (translate_path e (single_slash p)) "/"
            then Open_OSError else open_rb e (translate_path e (single_slash p)))
    as [data st_mtime | |].
  - destruct (fromtimestamp_ok e st_mtime).
    + destruct (not_modified e fields st_mtime);
        destruct Hg as [Hgf Hgr]; destruct Hh as [Hhf Hhr]; rewrite Hgf.
      * rewrite (replied_status _ _ _ code Hgr), (replied_status _ _ _ code Hhr).
        split; [reflexivity | exact (proj2 Hhr)].
      * apply (replied_copyfile _ _ data) in Hgr.
        rewrite (replied_status _ _ _ code Hgr), (replied_status _ _ _ code Hhr).
        split; [reflexivity | exact (proj2 Hhr)].
    + destruct Hg as (Hgf & Hgw & _). destruct Hh as (Hhf & Hhw & _).
      rewrite Hgf, Hgw, Hhw. split; reflexivity.
  - destruct Hg as (Hgf & bg & Hgr & _). destruct Hh as (Hhf & bh & Hhr & Hempty).
    rewrite Hgf.
    rewrite (replied_status _ _ _ code Hgr), (replied_status _ _ _ code Hhr).
    split; [reflexivity |]. rewrite (proj2 Hhr). apply Hempty. reflexivity.
  - destruct Hg as (Hgf & Hgw & _). destruct Hh as (Hhf & Hhw & _).
    rewrite Hgf, Hgw, Hhw. split; reflexivity.
Qed.

Lemma head_index_11_plain :
  plain_request Demo.site head_index_11 (Parsed [])
    "HEAD" "/index.html" "HTTP/1.1" [].
Proof.
  constructor.
  - vm_compute; discriminate.
  - reflexivity.
  - exists "1.1", (1, 1)%Z. split; reflexivity.
  - discriminate.
  - reflexivity.
Defined.

Lemma head_is_get_without_body_witness :
  has_status (response Handler Demo.site head_index_11 (Parsed [])) 200
  = has_status (response Handler Demo.site get_index_11 (Parsed [])) 200
  /\ body_of (response Handler Demo.site head_index_11 (Parsed [])) = "".
Proof.
  apply (head_is_get_without_body Demo.site get_index_11 head_index_11 (Parsed [])
           "/index.html" "HTTP/1.1" [] 200%Z).
  - exact (get_index_11_plain []).
  - exact head_index_11_plain.
  - reflexivity.
Defined.



(** ** HTTP/0.9, directories, connections *)











(** ** Exceptions that leave the handler *)

(** A plain GET or HEAD of a path that names nothing and is no file
    name (it has a NUL byte), and that does not end with a slash:
    [open] raises [ValueError], which is no [OSError], so [send_head]
    does not catch it.  Nothing is written on the connection: no 404,
    no header, so no header of serve.py. *)
Theorem unopenable_name_is_unanswered (e : env) (raw_requestline : string)
    (hdrs : header_block) (c p v : string) (fields : list (string * string)) :
  plain_request e raw_requestline hdrs c p v fields ->
  c = "GET" \/ c = "HEAD" ->
  fs e (translate_path e (single_slash p)) = None ->
  valid_filename e (translate_path e (single_slash p)) = false ->
  PyStr.endswith (translate_path e (single_slash p)) "/" = false ->
  let h := answer Handler e raw_requestline hdrs in
  wfile h = [] /\ raised h = true /\ has_status (wfile h) 404 = false.
Proof.
  intros Hplain Hc Hfs Hname Hslash. cbv zeta.
  unfold answer. cbn [end_headers_of].
  rewrite (plain_request_dispatch _ e raw_requestline hdrs c p v fields Hplain).
  assert (Hhead : send_head Handler_end_headers e (parsed_handler c p v fields)
                  = (None, raise_uncaught (parsed_handler c p v fields))).
  { unfold send_head, isdir. cbn [path parsed_handler]. rewrite Hfs.
    unfold send_file_head, open_rb. rewrite Hslash, Hfs, Hname. reflexivity. }
  destruct Hc as [-> | ->]; cbn [String.eqb Ascii.eqb Bool.eqb];
    unfold do_GET, do_HEAD; rewrite Hhead; repeat split.
Qed.

Lemma get_nul_11_plain :
  plain_request Demo.site get_nul_11 (Parsed [])
    "GET" ("/a" ++ String Ascii.zero "b") "HTTP/1.1" [].
Proof.
  constructor.
  - vm_compute; discriminate.
  - reflexivity.
  - exists "1.1", (1, 1)%Z. split; reflexivity.
  - discriminate.
  - reflexivity.
Defined.

Lemma unopenable_name_is_unanswered_witness :
  let h := answer Handler Demo.site get_nul_11 (Parsed []) in
  wfile h = [] /\ raised h = true /\ has_status (wfile h) 404 = false.
Proof.
  apply (unopenable_name_is_unanswered Demo.site get_nul_11 (Parsed [])
           "GET" ("/a" ++ String Ascii.zero "b") "HTTP/1.1" []).
  - exact get_nul_11_plain.
  - left; reflexivity.
  - reflexivity.
  - reflexivity.
  - reflexivity.
Defined.

(** A plain GET or HEAD of a file the server may read whose
    modification time does not convert to a date (it is outside the
    years 1 to 9999): the conversion raises in [send_head], before
    the header section is ended.  Nothing is written on the
    connection: no 200, no header, no byte of the file. *)
Theorem unconvertible_mtime_is_unanswered (e : env) (raw_requestline : string)
    (hdrs : header_block) (c p v : string) (fields : list (string * string))
    (data : string) (st_mtime : Z) :
  plain_request e raw_requestline hdrs c p v fields ->
  c = "GET" \/ c = "HEAD" ->
  fs e (translate_path e (single_slash p)) = Some (File data st_mtime true) ->
  PyStr.endswith (translate_path e (single_slash p)) "/" = false ->
  fromtimestamp_ok e st_mtime = false ->
  let h := answer Handler e raw_requestline hdrs in
  wfile h = [] /\ raised h = true /\ has_status (wfile h) 200 = false.
Proof.
  intros Hplain Hc Hfs Hslash Hok. cbv zeta.
  assert (Hdir : isdir e (translate_path e (single_slash p)) = false)
    by (unfold isdir; rewrite Hfs; reflexivity).
  pose proof (send_file_head_cases e (translate_path e (single_slash p)) c p v fields
                (plain_version _ _ _ _ _ _ _ Hplain)) as Hcases.
  cbv zeta in Hcases. unfold open_rb in Hcases.
  rewrite Hslash, Hfs, Hok in Hcases. destruct Hcases as (Hf & Hw & Hr).
  unfold answer. cbn [end_headers_of].
  rewrite (plain_request_dispatch _ e raw_requestline hdrs c p v fields Hplain).
  unfold do_GET, do_HEAD, send_head. cbn [path parsed_handler]. rewrite Hdir.
  fold (parsed_handler c p v fields).
  destruct (send_file_head Handler_end_headers e _ _) as [f s].
  cbn [fst snd] in Hf, Hw, Hr. subst f.
  destruct Hc as [-> | ->]; cbn [String.eqb Ascii.eqb Bool.eqb fst snd];
    rewrite Hw, Hr; repeat split.
Qed.

Lemma get_ancient_11_plain :
  plain_request Demo.site get_ancient_11 (Parsed [])
    "GET" "/ancient" "HTTP/1.1" [].
Proof.
  constructor.
  - vm_compute; discriminate.
  - reflexivity.
  - exists "1.1", (1, 1)%Z. split; reflexivity.
  - discriminate.
  - reflexivity.
Defined.

Lemma unconvertible_mtime_is_unanswered_witness :
  let h := answer Handler Demo.site get_ancient_11 (Parsed []) in
  wfile h = [] /\ raised h = true /\ has_status (wfile h) 200 = false.
Proof.
  apply (unconvertible_mtime_is_unanswered Demo.site get_ancient_11 (Parsed [])
           "GET" "/ancient" "HTTP/1.1" [] "old" (-62135596801)%Z).
  - exact get_ancient_11_plain.
  - left; reflexivity.
  - reflexivity.
  - reflexivity.
  - reflexivity.
Defined.

(** Of all that a client sends on one connection, [Handler] answers
    the first request and then closes: what is written on the
    connection is the response to that request, whatever follows it. *)
Theorem one_response_per_connection (e : env) (raw_requestline : string)
    (hdrs : header_block) (rest : list (string * header_block)) :
  wfile (connection Handler e ((raw_requestline, hdrs) :: rest))
  = response Handler e raw_requestline hdrs
  /\ close_connection (connection Handler e ((raw_requestline, hdrs) :: rest)) = true.
Proof.
  rewrite connection_is_one_answer. split; [reflexivity |].
  unfold answer.
  exact (closes_handle_one_request (end_headers_of Handler)
           (end_headers_of_closes Handler) e raw_requestline hdrs new_handler).
Qed.

Lemma cors_header_is_last_witness :
  exists before,
    [status_line 404 "File not found";
     "Server: SimpleHTTP/0.6 Python/3.11.2" ++ CRLF;
     "Date: Tue, 03 Nov 2026 10:00:00 GMT" ++ CRLF;
     "Connection: close" ++ CRLF;
     "Content-Type: text/html;charset=utf-8" ++ CRLF;
     "Content-Length: 53" ++ CRLF;
     cors_line; CRLF]
    = (before ++ [cors_line; CRLF])%list.
Proof.
  apply (cors_header_is_last Demo.site get_missing_11 (Parsed [])).
  vm_compute. left. reflexivity.
Defined.


Lemma server_close_iff_witness :
  In Ev_server_close
    (events (serve_py [] [] (fair_weather true (Raises KeyboardInterrupt)))).
Proof.
  apply (proj2 (server_close_iff [] [] (fair_weather true (Raises KeyboardInterrupt)))).
  split.
  - unfold startup_ok; cbn; repeat split; eauto.
  - split; reflexivity.
Defined.

Lemma socket_closed_iff_witness :
  final_socket (serve_py [] [] (fair_weather true (Raises KeyboardInterrupt))) = Closed.
Proof.
  apply (proj2 (socket_closed_iff [] [] (fair_weather true (Raises KeyboardInterrupt)))).
  split.
  - unfold startup_ok; cbn; repeat split; eauto.
  - repeat split; reflexivity.
Defined.
